(** * PopGen: the per-generation driver of the population-genetics simulator

    A shallow embedding of [src/pop_gen.py] (class [PopGen], methods
    [__init__], [run] and [calc_generation]).

    - A [PopGen] instance is a record of its six attributes.
    - The modules imported by [pop_gen.py] ([calc_N], [calc_next_N],
      [adj_by_fitness], [adj_by_drift], [calc_next_genotypes_data],
      [adj_by_mutation]) are collaborators: they are an interface
      ([Collaborators]) the driver is parameterised by.  Each one may raise
      and may consume the shared source of randomness.
    - A method is a computation over a [World] (the instance, the random
      source and the log of collaborator calls) that returns a value or
      raises; the world survives a raise, as attribute updates do in Python.
    - Python [int]s (generation indices, population sizes) are [Z].  A rate
      is the rational number a Python number denotes ([Q]: every finite
      double is a rational).  The one piece of arithmetic the driver does
      itself, [1 - bottleneck_N/next_N], is computed as Python computes it:
      in IEEE 754 binary64, rounding to nearest, ties to even. *)

From Stdlib Require Import ZArith QArith Qabs Qround String List Bool Lia.
Import ListNotations.
Local Open Scope Z_scope.

(** ** Python exceptions and results *)

Inductive exn : Type :=
| ValueError (msg : string)
| TypeError (msg : string)
| ZeroDivisionError (msg : string)
| IndexError (msg : string)
| OverflowError (msg : string).

Inductive result (A : Type) : Type :=
| Ok (a : A)
| Raise (e : exn).
Arguments Ok {A} a.
Arguments Raise {A} e.

(** The error the specification calls [MissingDataError]: the [ValueError]
    raised by the guard of [run]. *)
Definition MissingDataError : exn := ValueError "Genotype data must be provided".

(** ** The collaborators *)

(** The interface of the imported modules.  [GD] is the type of a genotype
    data dictionary, [Rng] the state of the random source.  An argument that
    can be Python's [None] at the call site is an [option]. *)
Class Collaborators (GD Rng : Type) : Type := {
  calc_N : option GD -> Rng -> result Z * Rng;
  calc_next_N : Z -> Q -> option Z -> Rng -> result Z * Rng;
  adj_by_fitness : option GD -> Rng -> result GD * Rng;
  adj_by_drift : GD -> Q -> Z -> option Z -> Rng -> result GD * Rng;
  calc_next_genotypes_data : GD -> Z -> Rng -> result GD * Rng;
  adj_by_mutation : GD -> option Q -> Rng -> result GD * Rng
}.

(** One entry of the call log: the collaborator, its arguments, its outcome. *)
Inductive event (GD : Type) : Type :=
| EvCalcN (d : option GD) (r : result Z)
| EvCalcNextN (n : Z) (growth : Q) (cap : option Z) (r : result Z)
| EvAdjFitness (d : option GD) (r : result GD)
| EvAdjDrift (d : GD) (rate : Q) (n : Z) (cap : option Z) (r : result GD)
| EvNextGenotypes (d : GD) (n : Z) (r : result GD)
| EvAdjMutation (d : GD) (rate : option Q) (r : result GD).
Arguments EvCalcN {GD} d r.
Arguments EvCalcNextN {GD} n growth cap r.
Arguments EvAdjFitness {GD} d r.
Arguments EvAdjDrift {GD} d rate n cap r.
Arguments EvNextGenotypes {GD} d n r.
Arguments EvAdjMutation {GD} d rate r.

(** ** The instance and the world *)

Record PopGen (GD : Type) : Type := mkPopGen {
  growth_rate : Q;
  carrying_capacity : option Z;
  max_drift : Q;
  mutation_rate : option Q;
  genotype_data : option GD;
  _gens_genotype_data : list (option GD)
}.
Arguments mkPopGen {GD}.
Arguments growth_rate {GD} p.
Arguments carrying_capacity {GD} p.
Arguments max_drift {GD} p.
Arguments mutation_rate {GD} p.
Arguments genotype_data {GD} p.
Arguments _gens_genotype_data {GD} p.

(** [PopGen.__init__] *)
Definition init {GD : Type} : PopGen GD :=
  mkPopGen 0%Q None 0%Q None None [].

Record World (GD Rng : Type) : Type := mkWorld {
  self : PopGen GD;
  rng : Rng;
  calls : list (event GD)
}.
Arguments mkWorld {GD Rng}.
Arguments self {GD Rng} w.
Arguments rng {GD Rng} w.
Arguments calls {GD Rng} w.

(** ** The monad of methods *)

Definition M (GD Rng A : Type) : Type := World GD Rng -> result A * World GD Rng.

Definition ret {GD Rng A} (a : A) : M GD Rng A := fun w => (Ok a, w).

Definition raise {GD Rng A} (e : exn) : M GD Rng A := fun w => (Raise e, w).

Definition bind {GD Rng A B} (m : M GD Rng A) (k : A -> M GD Rng B) : M GD Rng B :=
  fun w => match m w with
           | (Ok a, w') => k a w'
           | (Raise e, w') => (Raise e, w')
           end.

Declare Scope py_scope.
Delimit Scope py_scope with py.
Notation "x <- m ;; k" := (bind m (fun x => k))
  (at level 100, m at next level, right associativity) : py_scope.
Notation "m ;;; k" := (bind m (fun _ => k))
  (at level 100, right associativity) : py_scope.
Local Open Scope py_scope.

(** Reading an attribute of [self]. *)
Definition get {GD Rng A} (f : PopGen GD -> A) : M GD Rng A :=
  fun w => (Ok (f (self w)), w).

(** [self.genotype_data = v] *)
Definition set_genotype_data {GD Rng} (v : option GD) : M GD Rng unit :=
  fun w =>
    let s := self w in
    (Ok tt,
     mkWorld (mkPopGen (growth_rate s) (carrying_capacity s) (max_drift s)
                       (mutation_rate s) v (_gens_genotype_data s))
             (rng w) (calls w)).

(** [self._gens_genotype_data.append(v)] *)
Definition append_history {GD Rng} (v : option GD) : M GD Rng unit :=
  fun w =>
    let s := self w in
    (Ok tt,
     mkWorld (mkPopGen (growth_rate s) (carrying_capacity s) (max_drift s)
                       (mutation_rate s) (genotype_data s)
                       (_gens_genotype_data s ++ [v]))
             (rng w) (calls w)).

(** [l[-1]]: the last element, [IndexError] on an empty list. *)
Definition py_last {GD Rng A} (l : list A) : M GD Rng A :=
  match rev l with
  | [] => raise (IndexError "list index out of range")
  | a :: _ => ret a
  end.

(** A call of a collaborator: it runs on the random source and is logged
    with its outcome. *)
Definition call {GD Rng A} (f : Rng -> result A * Rng)
    (ev : result A -> event GD) : M GD Rng A :=
  fun w => let (r, g) := f (rng w) in
           (r, mkWorld (self w) g (calls w ++ [ev r])).

(** *** Double-precision arithmetic *)

(** [2^e] for any integer [e]. *)
Definition pow2 (e : Z) : Q :=
  if 0 <=? e then inject_Z (2 ^ e) else 1 # Z.to_pos (2 ^ (- e)).

(** For [x > 0], the exponent [e] with [2^e <= x < 2^(e+1)]. *)
Definition Qlog2 (x : Q) : Z :=
  let e := Z.log2 (Qnum x) - Z.log2 (Zpos (Qden x)) in
  if Qle_bool (pow2 e) x then e else e - 1.

(** To the nearest integer, ties to the even one. *)
Definition round_half_even (q : Q) : Z :=
  let f := Qfloor q in
  match Qcompare (q - inject_Z f) (1 # 2) with
  | Lt => f
  | Gt => f + 1
  | Eq => if Z.even f then f else f + 1
  end.

(** The double nearest to [x] (ties to even): 53 significant bits, the
    exponent not below that of the subnormals.  Meant for [x] within the
    range of the doubles, see [float_overflows]. *)
Definition binary64 (x : Q) : Q :=
  if Qeq_bool x 0 then 0%Q
  else
    let e := Z.max (Qlog2 (Qabs x)) (-1022) in
    let ulp := pow2 (e - 52) in
    (inject_Z (round_half_even (x / ulp)) * ulp)%Q.

(** [x] rounds beyond the largest double: [|x| >= 2^1024 - 2^970]. *)
Definition float_overflows (x : Q) : bool :=
  Qle_bool (inject_Z (2 ^ 1024 - 2 ^ 970)) (Qabs x).

(** The value of [1 - a/b] for ints [a] and [b <> 0] whose quotient is in
    range: [a/b] is the correctly rounded quotient of the two integers, and
    the subtraction rounds once more (it cannot overflow). *)
Definition float_one_minus_ratio (a b : Z) : Q :=
  binary64 (1 - binary64 (inject_Z a / inject_Z b)).

(** [1 - a/b] with true division of two ints: [ZeroDivisionError] for a zero
    divisor, [OverflowError] when the quotient is too large for a float. *)
Definition one_minus_ratio {GD Rng} (a b : Z) : M GD Rng Q :=
  if b =? 0 then raise (ZeroDivisionError "division by zero")
  else if float_overflows (inject_Z a / inject_Z b)
       then raise (OverflowError "integer division result too large for a float")
       else ret (float_one_minus_ratio a b).

(** [a == i] where [a] may be [None]. *)
Definition py_eq (a : option Z) (i : Z) : bool :=
  match a with
  | None => false
  | Some y => y =? i
  end.

(** [for i in l: body(i)] *)
Fixpoint for_each {GD Rng} (l : list Z) (body : Z -> M GD Rng unit) : M GD Rng unit :=
  match l with
  | [] => ret tt
  | i :: l' => body i ;;; for_each l' body
  end.

(** [range(n)] *)
Definition py_range (n : Z) : list Z := map Z.of_nat (seq 0 (Z.to_nat n)).

(** ** The driver *)

Section Driver.
Context {GD Rng : Type} `{C : Collaborators GD Rng}.

(** Lines 80-82: the bottleneck override.  Returns the data and the target
    size handed to the synthesizer.  [and] short-circuits: the comparison
    [next_N > bottleneck_N] is evaluated only when [bottleneck_yr == i],
    and ordering an [int] against [None] raises [TypeError]. *)
Definition bottleneck (i : Z) (bottleneck_yr bottleneck_N : option Z)
    (curr_genotypes_data : GD) (next_N : Z) : M GD Rng (GD * Z) :=
  if py_eq bottleneck_yr i then
    match bottleneck_N with
    | None =>
        raise (TypeError "'>' not supported between instances of 'int' and 'NoneType'")
    | Some b =>
        if b <? next_N then
          rate <- one_minus_ratio b next_N ;;
          cap <- get carrying_capacity ;;
          d <- call (adj_by_drift curr_genotypes_data rate b cap)
                    (EvAdjDrift curr_genotypes_data rate b cap) ;;
          ret (d, b)
        else ret (curr_genotypes_data, next_N)
    end
  else ret (curr_genotypes_data, next_N).

(** [PopGen.calc_generation], lines 64-86. *)
Definition calc_generation (i : Z) (bottleneck_yr bottleneck_N : option Z)
    : M GD Rng unit :=
  data <- get genotype_data ;;
  append_history data ;;;
  hist <- get _gens_genotype_data ;;
  curr0 <- py_last hist ;;
  n <- call (calc_N curr0) (EvCalcN curr0) ;;
  growth <- get growth_rate ;;
  cap <- get carrying_capacity ;;
  next_N <- call (calc_next_N n growth cap) (EvCalcNextN n growth cap) ;;
  curr1 <- call (adj_by_fitness curr0) (EvAdjFitness curr0) ;;
  drift <- get max_drift ;;
  n1 <- call (calc_N (Some curr1)) (EvCalcN (Some curr1)) ;;
  cap1 <- get carrying_capacity ;;
  curr2 <- call (adj_by_drift curr1 drift n1 cap1) (EvAdjDrift curr1 drift n1 cap1) ;;
  b <- bottleneck i bottleneck_yr bottleneck_N curr2 next_N ;;
  g <- call (calc_next_genotypes_data (fst b) (snd b)) (EvNextGenotypes (fst b) (snd b)) ;;
  set_genotype_data (Some g) ;;;
  rate <- get mutation_rate ;;
  g' <- call (adj_by_mutation g rate) (EvAdjMutation g rate) ;;
  set_genotype_data (Some g').

(** [PopGen.run], lines 51-62. *)
Definition run (generations : Z) (bottleneck_yr bottleneck_N : option Z)
    : M GD Rng (list (option GD)) :=
  data <- get genotype_data ;;
  match data with
  | None => raise MissingDataError
  | Some _ =>
      for_each (py_range generations)
               (fun i => calc_generation i bottleneck_yr bottleneck_N) ;;;
      get _gens_genotype_data
  end.

End Driver.

(** ** A concrete population *)

(** The six collaborator modules are imported by [pop_gen.py] but are not
    part of the source.  The instance below follows section 4 of the
    specification on a population whose genotypes are all equally fit, along
    the sample path on which the random draws add no noise.  It serves to
    run the driver on concrete inputs. *)
Module Sample.

(** Genotype data: a count per genotype, in a fixed genotype order. *)
Definition genotypes : Type := list (string * Z).

Definition total (d : genotypes) : Z :=
  fold_right (fun e acc => snd e + acc) 0 d.

(** Python's [round]: to the nearest integer, ties to the even one. *)
Definition py_round (q : Q) : Z :=
  let f := Qfloor q in
  match Qcompare (q - inject_Z f) (1 # 2) with
  | Lt => f
  | Gt => f + 1
  | Eq => if Z.even f then f else f + 1
  end.

(** What Python raises when code written for a dictionary iterates over
    [None]. *)
Definition none_error : exn := TypeError "'NoneType' object is not iterable".

(** The error the specification calls [InvalidDataError]. *)
Definition invalid_data : exn := ValueError "genotype counts must be non-negative".

(** Modelled from the spec: [calc_N] ([computeCurrentSize], section 4.1) is
    missing from the source; it sums the counts across all genotypes and
    fails when a count is negative.  On [None] the iteration over the data
    raises. *)
Definition sample_calc_N (d : option genotypes) (g : nat) : result Z * nat :=
  match d with
  | None => (Raise none_error, g)
  | Some d' =>
      if forallb (fun e => 0 <=? snd e) d' then (Ok (total d'), g)
      else (Raise invalid_data, g)
  end.

(** Modelled from the spec: [calc_next_N] ([computeNextSize], section 4.1)
    is missing from the source; [round(currentN * (1 + growthRate))],
    clamped to [0] from below and to the carrying capacity, if set, from
    above. *)
Definition sample_calc_next_N (n : Z) (growth : Q) (cap : option Z) (g : nat)
    : result Z * nat :=
  let grown := Z.max 0 (py_round (inject_Z n * (1 + growth))) in
  match cap with
  | None => (Ok grown, g)
  | Some c => (Ok (Z.min grown c), g)
  end.

(** Modelled from the spec: [adj_by_fitness] ([adjustByFitness], section
    4.2) is missing from the source; it re-weights the counts by fitness and
    renormalises to the same total, which keeps every count when all
    genotypes are equally fit.  On [None] the iteration over the data
    raises. *)
Definition sample_adj_by_fitness (d : option genotypes) (g : nat)
    : result genotypes * nat :=
  match d with
  | None => (Raise none_error, g)
  | Some d' => (Ok d', g)
  end.

(** Modelled from the spec: [adj_by_drift] ([adjustByDrift], section 4.3) is
    missing from the source; it consumes randomness and reshapes the
    composition without resizing.  Here: one draw, no noise. *)
Definition sample_adj_by_drift (d : genotypes) (rate : Q) (n : Z)
    (cap : option Z) (g : nat) : result genotypes * nat :=
  (Ok d, S g).

(** The counts rescaled to [target] individuals; the rounding remainder goes
    to the first genotype, so that the total is exactly [target]. *)
Definition rescale (d : genotypes) (target : Z) : genotypes :=
  let n := total d in
  let scaled := map (fun e => (fst e, snd e * target / n)) d in
  match scaled with
  | [] => []
  | (k, c) :: rest => (k, c + (target - total scaled)) :: rest
  end.

(** Modelled from the spec: [calc_next_genotypes_data]
    ([synthesizeNextGeneration], section 4.5) is missing from the source; it
    resamples the adjusted proportions into a generation of exactly
    [targetN] individuals.  Here: one draw, the proportions kept. *)
Definition sample_calc_next_genotypes_data (d : genotypes) (target : Z)
    (g : nat) : result genotypes * nat :=
  (Ok (rescale d target), S g).

(** The expected outcome of mutation at rate [r] on the first two
    genotypes: [floor(r * count)] individuals of the first one become
    individuals of the second one. *)
Definition flip (r : Q) (d : genotypes) : genotypes :=
  match d with
  | (k1, c1) :: (k2, c2) :: rest =>
      let moved := Qfloor (r * inject_Z c1) in
      (k1, c1 - moved) :: (k2, c2 + moved) :: rest
  | _ => d
  end.

(** Modelled from the spec: [adj_by_mutation] ([adjustByMutation], section
    4.4) is missing from the source; a no-op when the rate is unset,
    otherwise alleles flip at that rate and the total is kept.  Here: one
    draw, the expected number of flips. *)
Definition sample_adj_by_mutation (d : genotypes) (rate : option Q) (g : nat)
    : result genotypes * nat :=
  match rate with
  | None => (Ok d, g)
  | Some r => (Ok (flip r d), S g)
  end.

#[export] Instance sample : Collaborators genotypes nat := {
  calc_N := sample_calc_N;
  calc_next_N := sample_calc_next_N;
  adj_by_fitness := sample_adj_by_fitness;
  adj_by_drift := sample_adj_by_drift;
  calc_next_genotypes_data := sample_calc_next_genotypes_data;
  adj_by_mutation := sample_adj_by_mutation
}.

(** The population of the specification's scenarios: 60 AA and 40 aa. *)
Definition AA_aa : genotypes := [("AA"%string, 60); ("aa"%string, 40)].

(** A fresh instance ([PopGen()]) whose [genotype_data] has been set, with
    the given growth rate and carrying capacity. *)
Definition ready (growth : Q) (cap : option Z) (d : genotypes) : World genotypes nat :=
  mkWorld (mkPopGen growth cap 0%Q None (Some d) []) 0%nat [].

(** A fresh instance whose [genotype_data] is still [None]. *)
Definition uninitialized : World genotypes nat := mkWorld init 0%nat [].

(** A Ready instance with a growth rate and a mutation rate set. *)
Definition mutating (growth rate : Q) (d : genotypes) : World genotypes nat :=
  mkWorld (mkPopGen growth None 0%Q (Some rate) (Some d) []) 0%nat [].

Definition mutation_error : exn := ValueError "mutation failed".

(** The collaborators of [sample], except that the mutation adjustment
    raises whenever a rate is set: an instance for the error path of line
    86.  It is not taken from the specification, which does not say when
    the mutation adjustment fails. *)
Definition failing_mutation : Collaborators genotypes nat := {|
  calc_N := sample_calc_N;
  calc_next_N := sample_calc_next_N;
  adj_by_fitness := sample_adj_by_fitness;
  adj_by_drift := sample_adj_by_drift;
  calc_next_genotypes_data := sample_calc_next_genotypes_data;
  adj_by_mutation := fun d rate g =>
    match rate with
    | None => (Ok d, g)
    | Some _ => (Raise mutation_error, S g)
    end
|}.

End Sample.

(** ** Vocabulary of the statements *)

(** The override is off: the year differs, or the bottleneck size is not
    below the natural next size. *)
Definition override_off (i : Z) (yr bn : option Z) (next_N : Z) : Prop :=
  py_eq yr i = false \/ exists b, bn = Some b /\ next_N <= b.

(** Bottleneck arguments on which the override cannot raise: no year, or a
    size that is a population size. *)
Definition bottleneck_args_ok (yr bn : option Z) : Prop :=
  yr = None \/ exists b, bn = Some b /\ 0 <= b.

Section Vocabulary.
Context {GD Rng : Type} `{C : Collaborators GD Rng}.

(** The world after the first [k] iterations of the loop of [run]: the
    state entering generation [k]. *)
Definition after_generations (k : nat) (yr bn : option Z) (w : World GD Rng)
    : World GD Rng :=
  snd (for_each (py_range (Z.of_nat k)) (fun i => calc_generation i yr bn) w).

(** Collaborators that never raise on genotype data. *)
Definition infallible : Prop :=
  (forall d g, exists n g', calc_N (Some d) g = (Ok n, g')) /\
  (forall n growth cap g, exists m g', calc_next_N n growth cap g = (Ok m, g')) /\
  (forall d g, exists d' g', adj_by_fitness (Some d) g = (Ok d', g')) /\
  (forall d rate n cap g, exists d' g', adj_by_drift d rate n cap g = (Ok d', g')) /\
  (forall d n g, exists d' g', calc_next_genotypes_data d n g = (Ok d', g')) /\
  (forall d rate g, exists d' g', adj_by_mutation d rate g = (Ok d', g')).

End Vocabulary.

(** ** The rest of the class *)

(** The module [generate_genotype_data] imported at line 1: the generator of
    initial genotype data, one more collaborator.  [Args] stands for the
    positional and keyword arguments it is called with. *)
Class Generator (Args GD Rng : Type) : Type := {
  generate_genotype_data : Args -> Rng -> result GD * Rng
}.

(** [PopGen.generate_genotype_data], lines 88-92: the arguments are forwarded
    to the generator and its result is returned; no attribute of [self] is
    read or written.  The call log records the simulation pipeline only. *)
Definition PopGen_generate_genotype_data {Args GD Rng : Type}
    `{G : Generator Args GD Rng} (args : Args) : M GD Rng GD :=
  fun w => let (r, g) := generate_genotype_data args (rng w) in
           (r, mkWorld (self w) g (calls w)).

(** The world [w] with the list [h] in place of the history. *)
Definition with_history {GD Rng : Type} (h : list (option GD)) (w : World GD Rng)
    : World GD Rng :=
  let s := self w in
  mkWorld (mkPopGen (growth_rate s) (carrying_capacity s) (max_drift s)
                    (mutation_rate s) (genotype_data s) h)
          (rng w) (calls w).

(** The entries a computation added to a history that had [n] entries. *)
Definition added {A : Type} (n : nat) (h : list A) : list A := skipn n h.

(** The log entries that are calls of [adj_by_drift]. *)
Definition is_drift {GD : Type} (e : event GD) : bool :=
  match e with
  | EvAdjDrift _ _ _ _ _ => true
  | _ => false
  end.

Module SampleGenerator.
Import Sample.

(** Modelled from the spec: the generator module is missing from the source;
    section 6 has it produce initial genotype data from a configuration
    (genotypes, initial size).  Here: the size is split evenly over the
    genotypes, the remainder going to the first one; no randomness. *)
Definition sample_generate (args : list string * Z) (g : nat)
    : result genotypes * nat :=
  let names := fst args in
  let size := snd args in
  match names with
  | [] => (Ok [], g)
  | first :: rest =>
      let share := size / Z.of_nat (length names) in
      (Ok ((first, size - share * Z.of_nat (length rest))
             :: map (fun k => (k, share)) rest), g)
  end.

#[export] Instance sample_generator : Generator (list string * Z) genotypes nat := {
  generate_genotype_data := sample_generate
}.

End SampleGenerator.

(** ** Basic facts about the monad *)

Section Facts.
Context {GD Rng : Type} `{C : Collaborators GD Rng}.

Lemma py_last_snoc {A} (l : list A) (a : A) :
  @py_last GD Rng A (l ++ [a]) = ret a.
Proof. unfold py_last. now rewrite rev_unit. Qed.

Lemma bind_inv {A B} (m : M GD Rng A) (k : A -> M GD Rng B) w r w' :
  bind m k w = (r, w') ->
  (exists a w1, m w = (Ok a, w1) /\ k a w1 = (r, w')) \/
  (exists e, m w = (Raise e, w') /\ r = Raise e).
Proof.
  unfold bind. destruct (m w) as [[a|e] w1]; intros H.
  - left. now exists a, w1.
  - right. exists e. now inversion H.
Qed.

Lemma bind_ok {A B} (m : M GD Rng A) (k : A -> M GD Rng B) w b w' :
  bind m k w = (Ok b, w') ->
  exists a w1, m w = (Ok a, w1) /\ k a w1 = (Ok b, w').
Proof.
  intros H. apply bind_inv in H as [H | (e & _ & H)]; [exact H | discriminate].
Qed.

Lemma get_inv {A} (f : PopGen GD -> A) (w : World GD Rng) r w' :
  get f w = (r, w') -> r = Ok (f (self w)) /\ w' = w.
Proof. unfold get. intros H. now inversion H. Qed.

Lemma call_inv {A} (f : Rng -> result A * Rng) ev (w : World GD Rng) r w' :
  call f ev w = (r, w') ->
  exists g, f (rng w) = (r, g) /\ w' = mkWorld (self w) g (calls w ++ [ev r]).
Proof.
  unfold call. destruct (f (rng w)) as [r0 g]. intros H. inversion H; subst.
  now exists g.
Qed.

Lemma bottleneck_off i yr bn d next_N :
  override_off i yr bn next_N ->
  bottleneck i yr bn d next_N = ret (d, next_N).
Proof.
  unfold bottleneck. intros [-> | (b & -> & Hb)]; [reflexivity|].
  destruct (py_eq yr i); [|reflexivity].
  apply Z.ltb_ge in Hb. now rewrite Hb.
Qed.

Lemma bottleneck_inv i yr bn d next_N (w : World GD Rng) r w' :
  bottleneck i yr bn d next_N w = (r, w') ->
  (override_off i yr bn next_N /\ r = Ok (d, next_N) /\ w' = w) \/
  (py_eq yr i = true /\ bn = None /\ w' = w /\
   r = Raise (TypeError "'>' not supported between instances of 'int' and 'NoneType'")) \/
  (exists b, py_eq yr i = true /\ bn = Some b /\ b < next_N /\ next_N = 0 /\
     w' = w /\ r = Raise (ZeroDivisionError "division by zero")) \/
  (exists b, py_eq yr i = true /\ bn = Some b /\ b < next_N /\ next_N <> 0 /\
     float_overflows (inject_Z b / inject_Z next_N) = true /\
     w' = w /\
     r = Raise (OverflowError "integer division result too large for a float")) \/
  (exists b r' g, py_eq yr i = true /\ bn = Some b /\ b < next_N /\ next_N <> 0 /\
     float_overflows (inject_Z b / inject_Z next_N) = false /\
     adj_by_drift d (float_one_minus_ratio b next_N) b
                  (carrying_capacity (self w)) (rng w) = (r', g) /\
     w' = mkWorld (self w) g
            (calls w ++ [EvAdjDrift d (float_one_minus_ratio b next_N) b
                                    (carrying_capacity (self w)) r']) /\
     r = match r' with Ok d' => Ok (d', b) | Raise e => Raise e end).
Proof.
  unfold bottleneck, override_off.
  destruct (py_eq yr i) eqn:Ey.
  2:{ intros H. inversion H. left. auto. }
  destruct bn as [b|].
  2:{ intros H. inversion H. right. left. auto. }
  destruct (b <? next_N) eqn:Eb.
  2:{ intros H. inversion H. left. apply Z.ltb_ge in Eb. eauto 6. }
  apply Z.ltb_lt in Eb. unfold one_minus_ratio.
  destruct (next_N =? 0) eqn:E0.
  - apply Z.eqb_eq in E0. intros H. inversion H.
    right. right. left. exists b. auto 8.
  - apply Z.eqb_neq in E0.
    destruct (float_overflows (inject_Z b / inject_Z next_N)) eqn:Eo.
    { intros H. inversion H. right. right. right. left. exists b. auto 8. }
    intros H.
    unfold bind at 1 in H. cbn in H. unfold bind at 1 in H. cbn in H.
    unfold bind in H.
    destruct (call _ _ w) as [r0 w0] eqn:Ec.
    apply call_inv in Ec as (g & Ef & ->).
    right. right. right. right. exists b, r0, g.
    repeat split; auto.
    + destruct r0; inversion H; reflexivity.
    + destruct r0; inversion H; reflexivity.
Qed.

Lemma call_ok_inv {A} (f : Rng -> result A * Rng) ev (w : World GD Rng) a w' :
  call f ev w = (Ok a, w') ->
  exists g, f (rng w) = (Ok a, g) /\ w' = mkWorld (self w) g (calls w ++ [ev (Ok a)]).
Proof. apply call_inv. Qed.

Ltac ok_get H :=
  let a := fresh "a" in let w1 := fresh "w" in
  let Hm := fresh "Hm" in let E := fresh "E" in
  apply bind_ok in H as (a & w1 & Hm & H);
  apply get_inv in Hm as (E & ->); injection E as ->.

Ltac ok_call H n g E :=
  let w1 := fresh "w" in let Hm := fresh "Hm" in
  apply bind_ok in H as (n & w1 & Hm & H);
  apply call_ok_inv in Hm as (g & E & ->); cbn [self rng calls] in *.

Lemma calc_generation_ok_inv i yr bn (w w' : World GD Rng) :
  calc_generation i yr bn w = (Ok tt, w') ->
  exists n g1 next_N g2 d1 g3 n1 g4 d2 g5 dB nB over g6 d3 g7 d4 g8,
    calc_N (genotype_data (self w)) (rng w) = (Ok n, g1) /\
    calc_next_N n (growth_rate (self w)) (carrying_capacity (self w)) g1
      = (Ok next_N, g2) /\
    adj_by_fitness (genotype_data (self w)) g2 = (Ok d1, g3) /\
    calc_N (Some d1) g3 = (Ok n1, g4) /\
    adj_by_drift d1 (max_drift (self w)) n1 (carrying_capacity (self w)) g4
      = (Ok d2, g5) /\
    ((override_off i yr bn next_N /\
      over = [] /\ dB = d2 /\ nB = next_N /\ g6 = g5) \/
     (exists b, py_eq yr i = true /\ bn = Some b /\ b < next_N /\ next_N <> 0 /\
     float_overflows (inject_Z b / inject_Z next_N) = false /\
        adj_by_drift d2 (float_one_minus_ratio b next_N) b
                     (carrying_capacity (self w)) g5 = (Ok dB, g6) /\
        over = [EvAdjDrift d2 (float_one_minus_ratio b next_N) b
                           (carrying_capacity (self w)) (Ok dB)] /\
        nB = b)) /\
    calc_next_genotypes_data dB nB g6 = (Ok d3, g7) /\
    adj_by_mutation d3 (mutation_rate (self w)) g7 = (Ok d4, g8) /\
    w' = mkWorld
           (mkPopGen (growth_rate (self w)) (carrying_capacity (self w))
                     (max_drift (self w)) (mutation_rate (self w)) (Some d4)
                     (_gens_genotype_data (self w) ++ [genotype_data (self w)]))
           g8
           (calls w
              ++ [EvCalcN (genotype_data (self w)) (Ok n);
                  EvCalcNextN n (growth_rate (self w))
                              (carrying_capacity (self w)) (Ok next_N);
                  EvAdjFitness (genotype_data (self w)) (Ok d1);
                  EvCalcN (Some d1) (Ok n1);
                  EvAdjDrift d1 (max_drift (self w)) n1
                             (carrying_capacity (self w)) (Ok d2)]
              ++ over
              ++ [EvNextGenotypes dB nB (Ok d3);
                  EvAdjMutation d3 (mutation_rate (self w)) (Ok d4)]).
Proof.
  intros H. unfold calc_generation in H.
  ok_get H.
  apply bind_ok in H as ([] & w0 & Hm & H).
  unfold append_history in Hm. injection Hm as <-.
  ok_get H. cbn [self _gens_genotype_data] in H.
  rewrite py_last_snoc in H.
  apply bind_ok in H as (a & w1 & Hm & H). injection Hm as <- <-.
  ok_call H n g1 E1. ok_get H. ok_get H. cbn [self growth_rate carrying_capacity] in H.
  ok_call H next_N g2 E2.
  ok_call H d1 g3 E3. ok_get H. cbn [self max_drift] in *.
  ok_call H n1 g4 E4. ok_get H. cbn [self carrying_capacity] in *.
  ok_call H d2 g5 E5.
  apply bind_ok in H as ([dB nB] & wb & Hb & H). cbn [fst snd] in H.
  apply bottleneck_inv in Hb; cbn [self rng calls carrying_capacity] in Hb.
  destruct Hb as [(Hoff & Er & ->) | [(_ & _ & _ & Er) | [(b & _ & _ & _ & _ & _ & Er)
                 | [(b & _ & _ & _ & _ & _ & _ & Er)
                 | (b & r' & g6 & Hy & -> & Hlt & Hnz & Hfin & E6 & -> & Er)]]]];
    try discriminate Er.
  - injection Er as EdB EnB. subst dB nB.
    ok_call H d3 g7 E7.
    apply bind_ok in H as ([] & w0 & Hm & H). injection Hm as <-.
    ok_get H. cbn [self mutation_rate] in *.
    ok_call H d4 g8 E8. injection H as <-. cbn [self rng calls growth_rate carrying_capacity max_drift mutation_rate _gens_genotype_data].
    exists n, g1, next_N, g2, d1, g3, n1, g4, d2, g5, d2, next_N, [], g5, d3, g7, d4, g8.
    repeat (split; [assumption|]). split; [left; auto 6|].
    repeat (split; [assumption|]).
    rewrite <- !app_assoc. reflexivity.
  - destruct r' as [dB'|e]; [|discriminate Er].
    injection Er as EdB EnB. subst dB' nB.
    ok_call H d3 g7 E7.
    apply bind_ok in H as ([] & w0 & Hm & H). injection Hm as <-.
    ok_get H. cbn [self mutation_rate] in *.
    ok_call H d4 g8 E8. injection H as <-. cbn [self rng calls growth_rate carrying_capacity max_drift mutation_rate _gens_genotype_data].
    exists n, g1, next_N, g2, d1, g3, n1, g4, d2, g5, dB, b, 
      [EvAdjDrift d2 (float_one_minus_ratio b next_N) b
                           (carrying_capacity (self w)) (Ok dB)], g6, d3, g7, d4, g8.
    repeat (split; [assumption|]). split; [right; exists b; auto 8|].
    repeat (split; [assumption|]).
    rewrite <- !app_assoc. reflexivity.
Qed.

Lemma bind_step {A B} (m : M GD Rng A) (k : A -> M GD Rng B) w a w1 :
  m w = (Ok a, w1) -> bind m k w = k a w1.
Proof. unfold bind. now intros ->. Qed.

Lemma bind_raise {A B} (m : M GD Rng A) (k : A -> M GD Rng B) w e w1 :
  m w = (Raise e, w1) -> bind m k w = (Raise e, w1).
Proof. unfold bind. now intros ->. Qed.

Lemma call_eq {A} (f : Rng -> result A * Rng) ev (w : World GD Rng) r g :
  f (rng w) = (r, g) ->
  call f ev w = (r, mkWorld (self w) g (calls w ++ [ev r])).
Proof. unfold call. now intros ->. Qed.

Ltac proj :=
  cbn [self rng calls growth_rate carrying_capacity max_drift mutation_rate
       genotype_data _gens_genotype_data fst snd].

Ltac proj_all :=
  cbn [self rng calls growth_rate carrying_capacity max_drift mutation_rate
       genotype_data _gens_genotype_data fst snd] in *.

Ltac fwd :=
  first
    [ erewrite bind_step by (first [ reflexivity | apply call_eq; proj; eassumption ])
    | rewrite py_last_snoc ];
  proj.

Lemma bottleneck_on i yr b d next_N (w : World GD Rng) dB g :
  py_eq yr i = true -> b < next_N -> next_N <> 0 ->
  float_overflows (inject_Z b / inject_Z next_N) = false ->
  adj_by_drift d (float_one_minus_ratio b next_N) b
               (carrying_capacity (self w)) (rng w) = (Ok dB, g) ->
  bottleneck i yr (Some b) d next_N w =
  (Ok (dB, b),
   mkWorld (self w) g
     (calls w ++ [EvAdjDrift d (float_one_minus_ratio b next_N) b
                             (carrying_capacity (self w)) (Ok dB)])).
Proof.
  intros Hy Hlt Hnz Hfin E. unfold bottleneck, one_minus_ratio.
  rewrite Hy. apply Z.ltb_lt in Hlt. rewrite Hlt.
  apply Z.eqb_neq in Hnz. rewrite Hnz, Hfin.
  repeat fwd. reflexivity.
Qed.

Lemma calc_generation_ok_intro i yr bn (w : World GD Rng)
      n g1 next_N g2 d1 g3 n1 g4 d2 g5 dB nB over g6 d3 g7 d4 g8 :
    calc_N (genotype_data (self w)) (rng w) = (Ok n, g1) ->
    calc_next_N n (growth_rate (self w)) (carrying_capacity (self w)) g1
      = (Ok next_N, g2) ->
    adj_by_fitness (genotype_data (self w)) g2 = (Ok d1, g3) ->
    calc_N (Some d1) g3 = (Ok n1, g4) ->
    adj_by_drift d1 (max_drift (self w)) n1 (carrying_capacity (self w)) g4
      = (Ok d2, g5) ->
    ((override_off i yr bn next_N /\
      over = [] /\ dB = d2 /\ nB = next_N /\ g6 = g5) \/
     (exists b, py_eq yr i = true /\ bn = Some b /\ b < next_N /\ next_N <> 0 /\
     float_overflows (inject_Z b / inject_Z next_N) = false /\
        adj_by_drift d2 (float_one_minus_ratio b next_N) b
                     (carrying_capacity (self w)) g5 = (Ok dB, g6) /\
        over = [EvAdjDrift d2 (float_one_minus_ratio b next_N) b
                           (carrying_capacity (self w)) (Ok dB)] /\
        nB = b)) ->
    calc_next_genotypes_data dB nB g6 = (Ok d3, g7) ->
    adj_by_mutation d3 (mutation_rate (self w)) g7 = (Ok d4, g8) ->
    calc_generation i yr bn w =
    (Ok tt,
     mkWorld
           (mkPopGen (growth_rate (self w)) (carrying_capacity (self w))
                     (max_drift (self w)) (mutation_rate (self w)) (Some d4)
                     (_gens_genotype_data (self w) ++ [genotype_data (self w)]))
           g8
           (calls w
              ++ [EvCalcN (genotype_data (self w)) (Ok n);
                  EvCalcNextN n (growth_rate (self w))
                              (carrying_capacity (self w)) (Ok next_N);
                  EvAdjFitness (genotype_data (self w)) (Ok d1);
                  EvCalcN (Some d1) (Ok n1);
                  EvAdjDrift d1 (max_drift (self w)) n1
                             (carrying_capacity (self w)) (Ok d2)]
              ++ over
              ++ [EvNextGenotypes dB nB (Ok d3);
                  EvAdjMutation d3 (mutation_rate (self w)) (Ok d4)])).
Proof.
  intros E1 E2 E3 E4 E5 Hb E7 E8.
  unfold calc_generation.
  repeat fwd.
  destruct Hb as [(Hoff & -> & -> & -> & ->)
                 | (b & Hy & -> & Hlt & Hnz & Hfin & E6 & -> & ->)].
  - rewrite (bottleneck_off _ _ _ _ _ Hoff).
    repeat fwd. unfold set_genotype_data. proj.
    rewrite <- !app_assoc. reflexivity.
  - erewrite bind_step by (apply bottleneck_on; proj; eassumption).
    proj. repeat fwd. unfold set_genotype_data. proj.
    rewrite <- !app_assoc. reflexivity.
Qed.

Lemma bottleneck_self i yr bn d next_N (w : World GD Rng) r w' :
  bottleneck i yr bn d next_N w = (r, w') -> self w' = self w.
Proof.
  intros H. apply bottleneck_inv in H
    as [(_ & _ & ->) | [(_ & _ & -> & _) | [(b & _ & _ & _ & _ & -> & _)
       | [(b & _ & _ & _ & _ & _ & -> & _)
       | (b & r' & g & _ & _ & _ & _ & _ & _ & -> & _)]]]]; reflexivity.
Qed.

Ltac any_get H :=
  let Hm := fresh "Hm" in
  apply bind_inv in H as [(? & ? & Hm & H) | (? & Hm & ->)];
  [ apply get_inv in Hm as (Hm & ->); injection Hm as ->; proj
  | apply get_inv in Hm as (Hm & _); discriminate Hm ].

Ltac any_call H :=
  let Hm := fresh "Hm" in
  apply bind_inv in H as [(? & ? & Hm & H) | (? & Hm & ->)];
  [ apply call_inv in Hm as (? & _ & ->); proj_all
  | apply call_inv in Hm as (? & _ & ->); proj; auto 6 ].

Ltac any_set H :=
  let Hm := fresh "Hm" in
  apply bind_inv in H as [([] & ? & Hm & H) | (? & Hm & ->)];
  [ injection Hm as <-; proj_all
  | discriminate Hm ].

Lemma calc_generation_frame i yr bn (w : World GD Rng) r w' :
  calc_generation i yr bn w = (r, w') ->
  _gens_genotype_data (self w')
    = _gens_genotype_data (self w) ++ [genotype_data (self w)] /\
  growth_rate (self w') = growth_rate (self w) /\
  carrying_capacity (self w') = carrying_capacity (self w) /\
  max_drift (self w') = max_drift (self w) /\
  mutation_rate (self w') = mutation_rate (self w).
Proof.
  intros H. unfold calc_generation in H.
  any_get H. any_set H. any_get H. rewrite py_last_snoc in H.
  apply bind_inv in H as [(? & ? & Hm & H) | (? & Hm & ->)]; [|discriminate Hm].
  injection Hm as <- <-.
  any_call H. any_get H. any_get H. any_call H. any_call H. any_get H.
  any_call H. any_get H. any_call H.
  apply bind_inv in H as [([dB nB] & wb & Hm & H) | (? & Hm & ->)];
    apply bottleneck_self in Hm; proj_all.
  2:{ rewrite Hm. proj. auto 6. }
  destruct wb as [sb gb cb]. proj_all. subst sb.
  any_call H. any_set H. any_get H. any_call H.
  injection H as <- <-. proj. auto 6.
Qed.

(** *** The loop *)

Lemma for_each_app l1 l2 (body : Z -> M GD Rng unit) w :
  for_each (l1 ++ l2) body w = (for_each l1 body ;;; for_each l2 body) w.
Proof.
  revert w. induction l1 as [|i l1 IH]; intros w; cbn [app for_each].
  - reflexivity.
  - unfold bind. destruct (body i w) as [[[]|e] w1]; [|reflexivity].
    rewrite IH. reflexivity.
Qed.

Lemma for_each_cons_ok i l (body : Z -> M GD Rng unit) w w' :
  for_each (i :: l) body w = (Ok tt, w') ->
  exists w1, body i w = (Ok tt, w1) /\ for_each l body w1 = (Ok tt, w').
Proof.
  cbn [for_each]. intros H. apply bind_ok in H as ([] & w1 & H1 & H2). eauto.
Qed.

(** After a loop that completes, the history has one more entry per
    iteration: entry [j] is the genotype data entering iteration [j]. *)
Lemma for_each_ok_history l yr bn (w w' : World GD Rng) :
  for_each l (fun i => calc_generation i yr bn) w = (Ok tt, w') ->
  _gens_genotype_data (self w') =
  _gens_genotype_data (self w) ++
    map (fun j => genotype_data
                    (self (snd (for_each (firstn j l)
                                  (fun i => calc_generation i yr bn) w))))
        (seq 0 (length l)).
Proof.
  revert w. induction l as [|i l IH]; intros w H.
  - injection H as <-. cbn. now rewrite app_nil_r.
  - apply for_each_cons_ok in H as (w1 & H1 & H2).
    rewrite (IH _ H2).
    pose proof (calc_generation_frame _ _ _ _ _ _ H1) as (Hh & _).
    rewrite Hh, <- app_assoc. f_equal.
    cbn [length seq map firstn for_each app]. f_equal.
    rewrite <- seq_shift, map_map.
    apply map_ext. intros j. cbn [firstn for_each].
    now erewrite bind_step by eassumption.
Qed.

Lemma firstn_seq_le (k n s : nat) :
  (k <= n)%nat -> firstn k (seq s n) = seq s k.
Proof.
  revert n s. induction k as [|k IH]; intros n s Hk; [reflexivity|].
  destruct n as [|n]; [lia|]. cbn [seq firstn]. f_equal. apply IH. lia.
Qed.

Lemma py_range_firstn (k : nat) (g : Z) :
  (k <= Z.to_nat g)%nat -> firstn k (py_range g) = py_range (Z.of_nat k).
Proof.
  intros Hk. unfold py_range. rewrite Nat2Z.id, firstn_map.
  now rewrite firstn_seq_le.
Qed.

Lemma py_range_length g : length (py_range g) = Z.to_nat g.
Proof. unfold py_range. now rewrite length_map, length_seq. Qed.

(** *** [run] *)

Lemma run_ok_inv g yr bn (w : World GD Rng) h w' :
  run g yr bn w = (Ok h, w') ->
  (exists d, genotype_data (self w) = Some d) /\
  for_each (py_range g) (fun i => calc_generation i yr bn) w = (Ok tt, w') /\
  h = _gens_genotype_data (self w').
Proof.
  unfold run. intros H. ok_get H.
  destruct (genotype_data (self w)) as [d|]; [|discriminate H].
  apply bind_ok in H as ([] & w1 & H1 & H2).
  apply get_inv in H2 as (E & ->). injection E as ->. eauto.
Qed.

Lemma run_ready g yr bn (w : World GD Rng) d :
  genotype_data (self w) = Some d ->
  run g yr bn w =
  (for_each (py_range g) (fun i => calc_generation i yr bn) ;;;
   get _gens_genotype_data) w.
Proof. intros Hd. unfold run. fwd. now rewrite Hd. Qed.

Lemma calc_generation_keeps_ready i yr bn (w w' : World GD Rng) :
  calc_generation i yr bn w = (Ok tt, w') ->
  exists d, genotype_data (self w') = Some d.
Proof.
  intros H. apply calc_generation_ok_inv in H
    as (n & g1 & next_N & g2 & d1 & g3 & n1 & g4 & d2 & g5 & dB & nB & over
        & g6 & d3 & g7 & d4 & g8 & _ & _ & _ & _ & _ & _ & _ & _ & ->).
  now exists d4.
Qed.

Lemma for_each_keeps_ready l yr bn (w w' : World GD Rng) :
  (exists d, genotype_data (self w) = Some d) ->
  for_each l (fun i => calc_generation i yr bn) w = (Ok tt, w') ->
  exists d, genotype_data (self w') = Some d.
Proof.
  revert w. induction l as [|i l IH]; intros w Hd H.
  - now injection H as <-.
  - apply for_each_cons_ok in H as (w1 & H1 & H2).
    apply (IH w1); [|exact H2]. eapply calc_generation_keeps_ready; eauto.
Qed.

(** *** Completion with collaborators that do not raise *)

(** The arithmetic on three inputs: [1 - 10/100] is the double [0.9], not
    the rational [9/10]; [1 - 2^64/(2^64+1)] is [0.0]; [-10^400/100] is too
    large for a float. *)
Lemma float_one_minus_ratio_examples :
  Qred (float_one_minus_ratio 10 100) = 8106479329266893 # 9007199254740992 /\
  Qred (float_one_minus_ratio (2 ^ 64) (2 ^ 64 + 1)) = 0%Q /\
  float_overflows (inject_Z (- 10 ^ 400) / inject_Z 100) = true.
Proof. repeat split; vm_compute; reflexivity. Qed.

(** A quotient below [1] is in the range of the doubles. *)
Lemma float_small_ratio a b :
  0 <= a < b -> float_overflows (inject_Z a / inject_Z b) = false.
Proof.
  intros Hab. unfold float_overflows.
  destruct (Qle_bool _ _) eqn:E; [|reflexivity]. exfalso.
  apply Qle_bool_iff in E.
  assert (Hb : (0 < inject_Z b)%Q).
  { change 0%Q with (inject_Z 0). rewrite <- Zlt_Qlt. lia. }
  assert (Hq : (0 <= inject_Z a / inject_Z b)%Q).
  { apply Qle_shift_div_l; [exact Hb|]. rewrite Qmult_0_l.
    change 0%Q with (inject_Z 0). rewrite <- Zle_Qle. lia. }
  rewrite (Qabs_pos _ Hq) in E.
  assert (Hone : (inject_Z a / inject_Z b <= 1)%Q).
  { apply Qle_shift_div_r; [exact Hb|]. rewrite Qmult_1_l.
    rewrite <- Zle_Qle. lia. }
  pose proof (Qle_trans _ _ _ E Hone) as Habs.
  vm_compute in Habs. apply Habs. reflexivity.
Qed.

Lemma calc_generation_total i yr bn (w : World GD Rng) d :
  infallible ->
  genotype_data (self w) = Some d ->
  (py_eq yr i = false \/ exists b, bn = Some b /\ 0 <= b) ->
  exists w', calc_generation i yr bn w = (Ok tt, w').
Proof.
  intros (TN & TX & TF & TD & TS & TM) Hd Hargs.
  destruct (TN d (rng w)) as (n & g1 & E1).
  destruct (TX n (growth_rate (self w)) (carrying_capacity (self w)) g1)
    as (next_N & g2 & E2).
  destruct (TF d g2) as (d1 & g3 & E3).
  destruct (TN d1 g3) as (n1 & g4 & E4).
  destruct (TD d1 (max_drift (self w)) n1 (carrying_capacity (self w)) g4)
    as (d2 & g5 & E5).
  rewrite <- Hd in E1, E3.
  assert (Hcases : override_off i yr bn next_N \/
                   exists b, py_eq yr i = true /\ bn = Some b /\ b < next_N /\ next_N <> 0 /\
                             float_overflows (inject_Z b / inject_Z next_N) = false).
  { destruct Hargs as [Hy | (b & -> & Hb)]; [left; now left|].
    destruct (py_eq yr i) eqn:Hy; [|left; now left].
    destruct (Z.lt_ge_cases b next_N) as [Hlt | Hge].
    - right. exists b. repeat split; auto; [lia|].
      apply float_small_ratio. lia.
    - left. right. eauto. }
  destruct Hcases as [Hoff | (b & Hy & -> & Hlt & Hnz & Hfin)].
  - destruct (TS d2 next_N g5) as (d3 & g7 & E7).
    destruct (TM d3 (mutation_rate (self w)) g7) as (d4 & g8 & E8).
    eexists. eapply calc_generation_ok_intro; eauto.
    left. repeat split; eauto.
  - destruct (TD d2 (float_one_minus_ratio b next_N) b
                 (carrying_capacity (self w)) g5) as (dB & g6 & E6).
    destruct (TS dB b g6) as (d3 & g7 & E7).
    destruct (TM d3 (mutation_rate (self w)) g7) as (d4 & g8 & E8).
    eexists. eapply calc_generation_ok_intro; eauto.
    right. exists b. repeat split; eauto.
Qed.

Lemma args_ok_each yr bn i :
  bottleneck_args_ok yr bn ->
  py_eq yr i = false \/ exists b, bn = Some b /\ 0 <= b.
Proof. intros [-> | H]; [now left | now right]. Qed.

Lemma for_each_total l yr bn (w : World GD Rng) :
  infallible ->
  (exists d, genotype_data (self w) = Some d) ->
  bottleneck_args_ok yr bn ->
  exists w', for_each l (fun i => calc_generation i yr bn) w = (Ok tt, w').
Proof.
  intros HT Hd Hargs. revert w Hd.
  induction l as [|i l IH]; intros w (d & Hd); [now exists w|].
  destruct (calc_generation_total i yr bn w d HT Hd (args_ok_each _ _ _ Hargs))
    as (w1 & H1).
  destruct (IH w1) as (w' & H2); [eapply calc_generation_keeps_ready; eauto|].
  exists w'. cbn [for_each]. now erewrite bind_step by eassumption.
Qed.

Lemma run_total g yr bn (w : World GD Rng) :
  infallible ->
  (exists d, genotype_data (self w) = Some d) ->
  bottleneck_args_ok yr bn ->
  exists h w', run g yr bn w = (Ok h, w').
Proof.
  intros HT (d & Hd) Hargs.
  destruct (for_each_total (py_range g) yr bn w HT (ex_intro _ d Hd) Hargs)
    as (w' & H).
  exists (_gens_genotype_data (self w')), w'.
  rewrite (run_ready _ _ _ _ _ Hd).
  now erewrite bind_step by eassumption.
Qed.

Lemma for_each_ok_grows l yr bn (w w' : World GD Rng) :
  for_each l (fun i => calc_generation i yr bn) w = (Ok tt, w') ->
  exists new,
    _gens_genotype_data (self w') = _gens_genotype_data (self w) ++ new /\
    length new = length l.
Proof.
  intros H. apply for_each_ok_history in H. eexists. split; [exact H|].
  now rewrite length_map, length_seq.
Qed.

Lemma py_range_snoc g :
  0 < g -> py_range g = py_range (g - 1) ++ [g - 1].
Proof.
  intros Hg. unfold py_range.
  replace (Z.to_nat g) with (S (Z.to_nat (g - 1))) by lia.
  rewrite seq_S, map_app. cbn [map Nat.add]. do 2 f_equal. lia.
Qed.

Lemma py_range_in i g : In i (py_range g) -> 0 <= i < g.
Proof.
  unfold py_range. intros H. apply in_map_iff in H as (k & <- & Hk).
  apply in_seq in Hk. lia.
Qed.

Lemma for_each_ext l (f f' : Z -> M GD Rng unit) w :
  (forall i w0, In i l -> f i w0 = f' i w0) ->
  for_each l f w = for_each l f' w.
Proof.
  revert w. induction l as [|i l IH]; intros w Hext; [reflexivity|].
  cbn [for_each]. unfold bind. rewrite (Hext i w) by now left.
  destruct (f' i w) as [[[]|e] w1]; [|reflexivity].
  apply IH. intros j w0 Hj. apply Hext. now right.
Qed.

Lemma calc_generation_year_off i yr bn (w : World GD Rng) :
  py_eq yr i = false ->
  calc_generation i yr bn w = calc_generation i None None w.
Proof.
  intros Hy. unfold calc_generation, bottleneck. rewrite Hy. reflexivity.
Qed.

(** A completed step whose override is off: seven calls, the synthesizer
    at the natural next size. *)
Lemma calc_generation_natural i yr bn (w w' : World GD Rng) :
  py_eq yr i = false ->
  calc_generation i yr bn w = (Ok tt, w') ->
  exists n next_N d1 n1 d2 d3 d4,
    calls w' =
      calls w
        ++ [EvCalcN (genotype_data (self w)) (Ok n);
            EvCalcNextN n (growth_rate (self w))
                        (carrying_capacity (self w)) (Ok next_N);
            EvAdjFitness (genotype_data (self w)) (Ok d1);
            EvCalcN (Some d1) (Ok n1);
            EvAdjDrift d1 (max_drift (self w)) n1
                       (carrying_capacity (self w)) (Ok d2);
            EvNextGenotypes d2 next_N (Ok d3);
            EvAdjMutation d3 (mutation_rate (self w)) (Ok d4)].
Proof.
  intros Hy H. apply calc_generation_ok_inv in H
    as (n & g1 & next_N & g2 & d1 & g3 & n1 & g4 & d2 & g5 & dB & nB & over
        & g6 & d3 & g7 & d4 & g8 & _ & _ & _ & _ & _ & Hb & _ & _ & ->).
  destruct Hb as [(_ & -> & -> & -> & _) | (b & Hy' & _)]; [|congruence].
  exists n, next_N, d1, n1, d2, d3, d4. reflexivity.
Qed.

(** ** The generation step *)

(** The step up to the override, when the first five calls succeed. *)
Lemma calc_generation_five i yr bn (w : World GD Rng)
      n g1 next_N g2 d1 g3 n1 g4 d2 g5 :
  calc_N (genotype_data (self w)) (rng w) = (Ok n, g1) ->
  calc_next_N n (growth_rate (self w)) (carrying_capacity (self w)) g1
    = (Ok next_N, g2) ->
  adj_by_fitness (genotype_data (self w)) g2 = (Ok d1, g3) ->
  calc_N (Some d1) g3 = (Ok n1, g4) ->
  adj_by_drift d1 (max_drift (self w)) n1 (carrying_capacity (self w)) g4
    = (Ok d2, g5) ->
  calc_generation i yr bn w =
  (b <- bottleneck i yr bn d2 next_N ;;
   g <- call (calc_next_genotypes_data (fst b) (snd b))
             (EvNextGenotypes (fst b) (snd b)) ;;
   set_genotype_data (Some g) ;;;
   rate <- get mutation_rate ;;
   g' <- call (adj_by_mutation g rate) (EvAdjMutation g rate) ;;
   set_genotype_data (Some g'))
    (mkWorld
       (mkPopGen (growth_rate (self w)) (carrying_capacity (self w))
                 (max_drift (self w)) (mutation_rate (self w))
                 (genotype_data (self w))
                 (_gens_genotype_data (self w) ++ [genotype_data (self w)]))
       g5
       (calls w
          ++ [EvCalcN (genotype_data (self w)) (Ok n);
              EvCalcNextN n (growth_rate (self w))
                          (carrying_capacity (self w)) (Ok next_N);
              EvAdjFitness (genotype_data (self w)) (Ok d1);
              EvCalcN (Some d1) (Ok n1);
              EvAdjDrift d1 (max_drift (self w)) n1
                         (carrying_capacity (self w)) (Ok d2)])).
Proof.
  intros E1 E2 E3 E4 E5. unfold calc_generation. repeat fwd.
  rewrite <- !app_assoc. reflexivity.
Qed.

(** C1: on a Ready instance a generation step runs in this order: the
    current genotype data is appended to the history (whatever happens
    afterwards); the next size is computed by [calc_next_N] from the size
    [calc_N] gives for the data as it entered the step; then
    [adj_by_fitness] on that data; then [adj_by_drift] with [max_drift] and
    the size [calc_N] gives for the data fitness returned; then the
    bottleneck override, exactly when the year matches and the bottleneck
    size is below the next size; then the synthesizer at the target size;
    then [adj_by_mutation], whose result is the new current genotype data.
    Each call runs on the random state the previous one left.  The step
    completes exactly when all these calls succeed, and the world it leaves
    is the one they produce. *)
Theorem calc_generation_order i yr bn (w : World GD Rng) d :
  genotype_data (self w) = Some d ->
  (forall r w',
      calc_generation i yr bn w = (r, w') ->
      _gens_genotype_data (self w') = _gens_genotype_data (self w) ++ [Some d]) /\
  (forall w',
      calc_generation i yr bn w = (Ok tt, w') <->
      exists n g1 next_N g2 d1 g3 n1 g4 d2 g5 dB nB over g6 d3 g7 d4 g8,
        calc_N (Some d) (rng w) = (Ok n, g1) /\
        calc_next_N n (growth_rate (self w)) (carrying_capacity (self w)) g1
          = (Ok next_N, g2) /\
        adj_by_fitness (Some d) g2 = (Ok d1, g3) /\
        calc_N (Some d1) g3 = (Ok n1, g4) /\
        adj_by_drift d1 (max_drift (self w)) n1 (carrying_capacity (self w)) g4
          = (Ok d2, g5) /\
        ((override_off i yr bn next_N /\
          over = [] /\ dB = d2 /\ nB = next_N /\ g6 = g5) \/
         (exists b,
             py_eq yr i = true /\ bn = Some b /\ b < next_N /\ next_N <> 0 /\
             float_overflows (inject_Z b / inject_Z next_N) = false /\
             adj_by_drift d2 (float_one_minus_ratio b next_N) b
                          (carrying_capacity (self w)) g5 = (Ok dB, g6) /\
             over = [EvAdjDrift d2 (float_one_minus_ratio b next_N) b
                                (carrying_capacity (self w)) (Ok dB)] /\
             nB = b)) /\
        calc_next_genotypes_data dB nB g6 = (Ok d3, g7) /\
        adj_by_mutation d3 (mutation_rate (self w)) g7 = (Ok d4, g8) /\
        w' = mkWorld
               (mkPopGen (growth_rate (self w)) (carrying_capacity (self w))
                         (max_drift (self w)) (mutation_rate (self w)) (Some d4)
                         (_gens_genotype_data (self w) ++ [Some d]))
               g8
               (calls w
                  ++ [EvCalcN (Some d) (Ok n);
                      EvCalcNextN n (growth_rate (self w))
                                  (carrying_capacity (self w)) (Ok next_N);
                      EvAdjFitness (Some d) (Ok d1);
                      EvCalcN (Some d1) (Ok n1);
                      EvAdjDrift d1 (max_drift (self w)) n1
                                 (carrying_capacity (self w)) (Ok d2)]
                  ++ over
                  ++ [EvNextGenotypes dB nB (Ok d3);
                      EvAdjMutation d3 (mutation_rate (self w)) (Ok d4)])).
Proof.
  intros Hd. split.
  - intros r w' H. apply calc_generation_frame in H as (Hh & _).
    now rewrite Hh, Hd.
  - intros w'. rewrite <- Hd. split.
    + apply calc_generation_ok_inv.
    + intros (n & g1 & next_N & g2 & d1 & g3 & n1 & g4 & d2 & g5 & dB & nB & over
              & g6 & d3 & g7 & d4 & g8 & E1 & E2 & E3 & E4 & E5 & Hb & E7 & E8 & ->).
      eapply calc_generation_ok_intro; eassumption.
Qed.

(** C2 (amended): in the generation whose index is the bottleneck year,
    once the first five calls have succeeded and given the natural next
    size [next_N]: when [bottleneck_N < next_N] and [1 - bottleneck_N/next_N]
    can be computed ([next_N] is not zero and the quotient is within the
    range of the floats, as is always the case for [bottleneck_N >= 0]), the
    step goes on with [adj_by_drift] at that rate, as double-precision
    arithmetic gives it, and at size [bottleneck_N], then with the
    synthesizer at target [bottleneck_N], then mutation, and it completes
    exactly when these succeed; when [bottleneck_N >= next_N] the step is
    the step without bottleneck arguments, the synthesizer at the natural
    next size. *)
Theorem bottleneck_override i b (w : World GD Rng)
    n g1 next_N g2 d1 g3 n1 g4 d2 g5 :
  calc_N (genotype_data (self w)) (rng w) = (Ok n, g1) ->
  calc_next_N n (growth_rate (self w)) (carrying_capacity (self w)) g1
    = (Ok next_N, g2) ->
  adj_by_fitness (genotype_data (self w)) g2 = (Ok d1, g3) ->
  calc_N (Some d1) g3 = (Ok n1, g4) ->
  adj_by_drift d1 (max_drift (self w)) n1 (carrying_capacity (self w)) g4
    = (Ok d2, g5) ->
  (0 <= b -> b < next_N ->
   next_N <> 0 /\ float_overflows (inject_Z b / inject_Z next_N) = false) /\
  (b < next_N -> next_N <> 0 ->
   float_overflows (inject_Z b / inject_Z next_N) = false ->
   forall w',
     calc_generation i (Some i) (Some b) w = (Ok tt, w') <->
     exists dB g6 d3 g7 d4 g8,
       adj_by_drift d2 (float_one_minus_ratio b next_N) b
                    (carrying_capacity (self w)) g5 = (Ok dB, g6) /\
       calc_next_genotypes_data dB b g6 = (Ok d3, g7) /\
       adj_by_mutation d3 (mutation_rate (self w)) g7 = (Ok d4, g8) /\
       w' = mkWorld
              (mkPopGen (growth_rate (self w)) (carrying_capacity (self w))
                        (max_drift (self w)) (mutation_rate (self w)) (Some d4)
                        (_gens_genotype_data (self w) ++ [genotype_data (self w)]))
              g8
              (calls w
                 ++ [EvCalcN (genotype_data (self w)) (Ok n);
                     EvCalcNextN n (growth_rate (self w))
                                 (carrying_capacity (self w)) (Ok next_N);
                     EvAdjFitness (genotype_data (self w)) (Ok d1);
                     EvCalcN (Some d1) (Ok n1);
                     EvAdjDrift d1 (max_drift (self w)) n1
                                (carrying_capacity (self w)) (Ok d2);
                     EvAdjDrift d2 (float_one_minus_ratio b next_N) b
                                (carrying_capacity (self w)) (Ok dB);
                     EvNextGenotypes dB b (Ok d3);
                     EvAdjMutation d3 (mutation_rate (self w)) (Ok d4)])) /\
  (next_N <= b ->
   calc_generation i (Some i) (Some b) w = calc_generation i None None w /\
   forall w',
     calc_generation i (Some i) (Some b) w = (Ok tt, w') <->
     exists d3 g7 d4 g8,
       calc_next_genotypes_data d2 next_N g5 = (Ok d3, g7) /\
       adj_by_mutation d3 (mutation_rate (self w)) g7 = (Ok d4, g8) /\
       w' = mkWorld
              (mkPopGen (growth_rate (self w)) (carrying_capacity (self w))
                        (max_drift (self w)) (mutation_rate (self w)) (Some d4)
                        (_gens_genotype_data (self w) ++ [genotype_data (self w)]))
              g8
              (calls w
                 ++ [EvCalcN (genotype_data (self w)) (Ok n);
                     EvCalcNextN n (growth_rate (self w))
                                 (carrying_capacity (self w)) (Ok next_N);
                     EvAdjFitness (genotype_data (self w)) (Ok d1);
                     EvCalcN (Some d1) (Ok n1);
                     EvAdjDrift d1 (max_drift (self w)) n1
                                (carrying_capacity (self w)) (Ok d2);
                     EvNextGenotypes d2 next_N (Ok d3);
                     EvAdjMutation d3 (mutation_rate (self w)) (Ok d4)])).
Proof.
  intros E1 E2 E3 E4 E5.
  assert (Hyear : py_eq (Some i) i = true) by (cbn; apply Z.eqb_refl).
  assert (Hinv : forall w',
             calc_generation i (Some i) (Some b) w = (Ok tt, w') ->
             exists dB nB over g6 d3 g7 d4 g8,
               ((override_off i (Some i) (Some b) next_N /\
                 over = [] /\ dB = d2 /\ nB = next_N /\ g6 = g5) \/
                (b < next_N /\
                 adj_by_drift d2 (float_one_minus_ratio b next_N) b
                              (carrying_capacity (self w)) g5 = (Ok dB, g6) /\
                 over = [EvAdjDrift d2 (float_one_minus_ratio b next_N) b
                                    (carrying_capacity (self w)) (Ok dB)] /\
                 nB = b)) /\
               calc_next_genotypes_data dB nB g6 = (Ok d3, g7) /\
               adj_by_mutation d3 (mutation_rate (self w)) g7 = (Ok d4, g8) /\
               w' = mkWorld
                      (mkPopGen (growth_rate (self w)) (carrying_capacity (self w))
                                (max_drift (self w)) (mutation_rate (self w)) (Some d4)
                                (_gens_genotype_data (self w) ++ [genotype_data (self w)]))
                      g8
                      (calls w
                         ++ [EvCalcN (genotype_data (self w)) (Ok n);
                             EvCalcNextN n (growth_rate (self w))
                                         (carrying_capacity (self w)) (Ok next_N);
                             EvAdjFitness (genotype_data (self w)) (Ok d1);
                             EvCalcN (Some d1) (Ok n1);
                             EvAdjDrift d1 (max_drift (self w)) n1
                                        (carrying_capacity (self w)) (Ok d2)]
                         ++ over
                         ++ [EvNextGenotypes dB nB (Ok d3);
                             EvAdjMutation d3 (mutation_rate (self w)) (Ok d4)])).
  { intros w' H. apply calc_generation_ok_inv in H
      as (n' & g1' & next_N' & g2' & d1' & g3' & n1' & g4' & d2' & g5' & dB & nB
          & over & g6 & d3 & g7 & d4 & g8
          & E1' & E2' & E3' & E4' & E5' & Hb & E7 & E8 & ->).
    rewrite E1 in E1'. injection E1' as <- <-.
    rewrite E2 in E2'. injection E2' as <- <-.
    rewrite E3 in E3'. injection E3' as <- <-.
    rewrite E4 in E4'. injection E4' as <- <-.
    rewrite E5 in E5'. injection E5' as <- <-.
    exists dB, nB, over, g6, d3, g7, d4, g8.
    split; [|auto].
    destruct Hb as [Hoff | (b' & _ & Eb & Hlt & _ & _ & E6 & -> & ->)].
    - now left.
    - injection Eb as <-. right. auto. }
  split; [|split].
  - intros Hb Hlt. split; [lia|]. apply float_small_ratio. lia.
  - intros Hlt Hnz Hfin w'. split.
    + intros H. apply Hinv in H
        as (dB & nB & over & g6 & d3 & g7 & d4 & g8 & Hb & E7 & E8 & ->).
      destruct Hb as [([Hy | (b' & Eb & Hge)] & _) | (_ & E6 & -> & ->)].
      * congruence.
      * injection Eb as <-. lia.
      * exists dB, g6, d3, g7, d4, g8. auto.
    + intros (dB & g6 & d3 & g7 & d4 & g8 & E6 & E7 & E8 & ->).
      eapply (calc_generation_ok_intro i (Some i) (Some b) w
                n g1 next_N g2 d1 g3 n1 g4 d2 g5 dB b
                [EvAdjDrift d2 (float_one_minus_ratio b next_N) b
                            (carrying_capacity (self w)) (Ok dB)]);
        try eassumption.
      right. exists b. auto 10.
  - intros Hge.
    assert (Hoff : override_off i (Some i) (Some b) next_N).
    { right. now exists b. }
    split.
    + rewrite (calc_generation_five i (Some i) (Some b) w _ _ _ _ _ _ _ _ _ _
                 E1 E2 E3 E4 E5).
      rewrite (calc_generation_five i None None w _ _ _ _ _ _ _ _ _ _
                 E1 E2 E3 E4 E5).
      unfold bind at 1 3. rewrite (bottleneck_off _ _ _ _ _ Hoff). reflexivity.
    + intros w'. split.
      * intros H. apply Hinv in H
          as (dB & nB & over & g6 & d3 & g7 & d4 & g8 & Hb & E7 & E8 & ->).
        destruct Hb as [(_ & -> & -> & -> & ->) | (Hlt & _)]; [|lia].
        exists d3, g7, d4, g8. auto.
      * intros (d3 & g7 & d4 & g8 & E7 & E8 & ->).
        eapply (calc_generation_ok_intro i (Some i) (Some b) w
                  n g1 next_N g2 d1 g3 n1 g4 d2 g5 d2 next_N []);
          try eassumption.
        left. auto.
Qed.

(** C8: the step appends the current genotype data to the history before
    anything else, so the history has grown by that one entry whatever the
    outcome of the step, a raise included; on an instance whose genotype
    data is unset the entry appended is [None]. *)
Theorem calc_generation_appends_first i yr bn (w : World GD Rng) :
  _gens_genotype_data (self (snd (calc_generation i yr bn w)))
    = _gens_genotype_data (self w) ++ [genotype_data (self w)] /\
  (forall e w',
      calc_generation i yr bn w = (Raise e, w') ->
      _gens_genotype_data (self w')
        = _gens_genotype_data (self w) ++ [genotype_data (self w)]) /\
  (genotype_data (self w) = None ->
   _gens_genotype_data (self (snd (calc_generation i yr bn w)))
     = _gens_genotype_data (self w) ++ [None]).
Proof.
  assert (Hany : forall r w', calc_generation i yr bn w = (r, w') ->
            _gens_genotype_data (self w')
              = _gens_genotype_data (self w) ++ [genotype_data (self w)]).
  { intros r w' H. now apply calc_generation_frame in H. }
  assert (Hsnd : _gens_genotype_data (self (snd (calc_generation i yr bn w)))
                 = _gens_genotype_data (self w) ++ [genotype_data (self w)]).
  { apply (Hany (fst (calc_generation i yr bn w))). apply surjective_pairing. }
  split; [exact Hsnd|]. split.
  - intros e w'. apply Hany.
  - intros Hd. now rewrite Hsnd, Hd.
Qed.

(** ** [run] *)

(** C10: on a Ready instance [run(0)] performs no generation step: it
    returns the history as it is, and the instance (genotype data, history
    and the four parameters), the random source and the call log are
    unchanged. *)
Theorem run_zero yr bn (w : World GD Rng) d :
  genotype_data (self w) = Some d ->
  run 0 yr bn w = (Ok (_gens_genotype_data (self w)), w).
Proof. intros Hd. rewrite (run_ready _ _ _ _ _ Hd). reflexivity. Qed.

(** C3: after [run(g)] on a fresh Ready instance the history has exactly
    [g] entries, the first one is the genotype data set before the call,
    and entry [k] is the genotype data of the state entering generation
    [k], taken before that generation's transforms. *)
Theorem run_history_growth g yr bn (w : World GD Rng) d0 h w' :
  genotype_data (self w) = Some d0 ->
  _gens_genotype_data (self w) = [] ->
  0 <= g ->
  run g yr bn w = (Ok h, w') ->
  Z.of_nat (length h) = g /\
  (0 < g -> nth_error h 0 = Some (Some d0)) /\
  (forall k, (k < length h)%nat ->
     nth_error h k = Some (genotype_data (self (after_generations k yr bn w)))).
Proof.
  intros Hd Hfresh Hg H.
  apply run_ok_inv in H as (_ & Hloop & ->).
  apply for_each_ok_history in Hloop. rewrite Hfresh, py_range_length in Hloop.
  cbn [app] in Hloop.
  assert (Hlen : length (_gens_genotype_data (self w')) = Z.to_nat g).
  { now rewrite Hloop, length_map, length_seq. }
  assert (Hnth : forall k, (k < Z.to_nat g)%nat ->
            nth_error (_gens_genotype_data (self w')) k
            = Some (genotype_data (self (after_generations k yr bn w)))).
  { intros k Hk. rewrite Hloop, nth_error_map, nth_error_seq.
    apply Nat.ltb_lt in Hk as Hk'. rewrite Hk'. cbn [option_map Nat.add].
    unfold after_generations. rewrite py_range_firstn by lia. reflexivity. }
  split; [lia|]. split.
  - intros Hpos. rewrite Hnth by lia. f_equal. exact Hd.
  - intros k Hk. apply Hnth. lia.
Qed.

(** C7: [run] returns the whole accumulated history and leaves the
    instance Ready; a second [run] on the same instance passes the guard
    (and completes when the collaborators do not raise), returns the
    entries of the first run followed by its own, [g1 + g2] entries more
    than the history held before the first run. *)
Theorem run_accumulates g1 g2 yr1 bn1 yr2 bn2 (w : World GD Rng) h1 w1 :
  0 <= g1 -> 0 <= g2 ->
  run g1 yr1 bn1 w = (Ok h1, w1) ->
  h1 = _gens_genotype_data (self w1) /\
  Z.of_nat (length h1) = Z.of_nat (length (_gens_genotype_data (self w))) + g1 /\
  (exists d, genotype_data (self w1) = Some d) /\
  (infallible -> bottleneck_args_ok yr2 bn2 ->
   exists h2 w2, run g2 yr2 bn2 w1 = (Ok h2, w2)) /\
  (forall h2 w2,
      run g2 yr2 bn2 w1 = (Ok h2, w2) ->
      h2 = _gens_genotype_data (self w2) /\
      (exists new, h2 = h1 ++ new /\ Z.of_nat (length new) = g2) /\
      Z.of_nat (length h2)
        = Z.of_nat (length (_gens_genotype_data (self w))) + g1 + g2 /\
      (_gens_genotype_data (self w) = [] -> Z.of_nat (length h2) = g1 + g2)).
Proof.
  intros Hg1 Hg2 H1.
  apply run_ok_inv in H1 as (Hd & Hloop1 & ->).
  pose proof (for_each_keeps_ready _ _ _ _ _ Hd Hloop1) as Hd1.
  apply for_each_ok_grows in Hloop1 as (new1 & Hh1 & Hl1).
  rewrite py_range_length in Hl1.
  split; [reflexivity|]. split; [rewrite Hh1, length_app; lia|].
  split; [exact Hd1|]. split.
  - intros HT Hargs. now apply run_total.
  - intros h2 w2 H2. apply run_ok_inv in H2 as (_ & Hloop2 & ->).
    apply for_each_ok_grows in Hloop2 as (new2 & Hh2 & Hl2).
    rewrite py_range_length in Hl2.
    split; [reflexivity|]. split; [exists new2; split; [exact Hh2 | lia]|].
    split.
    + rewrite Hh2, Hh1, !length_app. lia.
    + intros Hfresh. rewrite Hh2, Hh1, Hfresh, !length_app. cbn [length]. lia.
Qed.

(** C9: when the bottleneck year is unset or lies outside
    [0 .. generations-1], the override is the identity in every generation
    of the run, and the run is the run without bottleneck arguments. *)
Theorem bottleneck_year_outside_run g yr bn (w : World GD Rng) :
  (yr = None \/ exists y, yr = Some y /\ (y < 0 \/ g <= y)) ->
  (forall i, In i (py_range g) ->
     py_eq yr i = false /\
     forall d next_N, bottleneck i yr bn d next_N = ret (d, next_N)) /\
  run g yr bn w = run g None None w.
Proof.
  intros Hyr.
  assert (Hoff : forall i, In i (py_range g) -> py_eq yr i = false).
  { intros i Hi. apply py_range_in in Hi.
    destruct Hyr as [-> | (y & -> & Hy)]; [reflexivity|].
    cbn [py_eq]. apply Z.eqb_neq. lia. }
  split.
  - intros i Hi. split; [now apply Hoff|].
    intros d next_N. apply bottleneck_off. left. now apply Hoff.
  - unfold run, bind, get.
    destruct (genotype_data (self w)); [|reflexivity].
    rewrite (for_each_ext _ _ (fun i => calc_generation i None None)).
    + reflexivity.
    + intros i w0 Hi. apply calc_generation_year_off. now apply Hoff.
Qed.

(** C4 (amended): [run] on an instance whose genotype data is unset
    raises the missing-data error before any generation step: the
    instance, the random source and the call log are untouched, nothing is
    retried.  [calc_generation] has no guard of its own: it appends [None]
    to the history and hands [None] to [calc_N]; when [calc_N] raises,
    that error is the outcome of the step. *)
Theorem run_requires_data g i yr bn (w : World GD Rng) :
  genotype_data (self w) = None ->
  run g yr bn w = (Raise MissingDataError, w) /\
  (forall e g',
      calc_N None (rng w) = (Raise e, g') ->
      calc_generation i yr bn w =
      (Raise e,
       mkWorld (mkPopGen (growth_rate (self w)) (carrying_capacity (self w))
                         (max_drift (self w)) (mutation_rate (self w)) None
                         (_gens_genotype_data (self w) ++ [None]))
               g'
               (calls w ++ [EvCalcN None (Raise e)]))).
Proof.
  intros Hd. split.
  - unfold run. fwd. now rewrite Hd.
  - intros e g' E. unfold calc_generation. repeat fwd. rewrite Hd.
    erewrite bind_raise by (apply call_eq; proj; exact E).
    reflexivity.
Qed.

(** C5 (amended): a generation step that completes has called, in order
    and each on the random state the previous call left, the collaborators
    up to [adj_by_mutation]; the result of [adj_by_mutation] is the new
    current genotype data, and the one entry the step has appended to the
    history is the genotype data that entered the step.  After [run(g)]
    with [g >= 1] the last history entry is the data that entered
    generation [g-1], and the final world is the one generation [g-1] made
    of the state it entered: its current data is that generation's mutation
    result. *)
Theorem mutation_result_is_current g yr bn (w : World GD Rng) :
  (forall k (w0 w' : World GD Rng),
      calc_generation k yr bn w0 = (Ok tt, w') ->
      exists n g1 next_N g2 d1 g3 n1 g4 d2 g5 dB nB over g6 d3 g7 d4 g8,
        calc_N (genotype_data (self w0)) (rng w0) = (Ok n, g1) /\
        calc_next_N n (growth_rate (self w0)) (carrying_capacity (self w0)) g1
          = (Ok next_N, g2) /\
        adj_by_fitness (genotype_data (self w0)) g2 = (Ok d1, g3) /\
        calc_N (Some d1) g3 = (Ok n1, g4) /\
        adj_by_drift d1 (max_drift (self w0)) n1 (carrying_capacity (self w0)) g4
          = (Ok d2, g5) /\
        ((override_off k yr bn next_N /\
          over = [] /\ dB = d2 /\ nB = next_N /\ g6 = g5) \/
         (exists b,
             py_eq yr k = true /\ bn = Some b /\ b < next_N /\ next_N <> 0 /\
             float_overflows (inject_Z b / inject_Z next_N) = false /\
             adj_by_drift d2 (float_one_minus_ratio b next_N) b
                          (carrying_capacity (self w0)) g5 = (Ok dB, g6) /\
             over = [EvAdjDrift d2 (float_one_minus_ratio b next_N) b
                                (carrying_capacity (self w0)) (Ok dB)] /\
             nB = b)) /\
        calc_next_genotypes_data dB nB g6 = (Ok d3, g7) /\
        adj_by_mutation d3 (mutation_rate (self w0)) g7 = (Ok d4, g8) /\
        genotype_data (self w') = Some d4 /\
        rng w' = g8 /\
        _gens_genotype_data (self w')
          = _gens_genotype_data (self w0) ++ [genotype_data (self w0)]) /\
  (forall h w',
      0 < g ->
      run g yr bn w = (Ok h, w') ->
      let entering := after_generations (Z.to_nat (g - 1)) yr bn w in
      last h None = genotype_data (self entering) /\
      calc_generation (g - 1) yr bn entering = (Ok tt, w')).
Proof.
  split.
  - intros k w0 w' H. apply calc_generation_ok_inv in H
      as (n & g1 & next_N & g2 & d1 & g3 & n1 & g4 & d2 & g5 & dB & nB & over
          & g6 & d3 & g7 & d4 & g8 & E1 & E2 & E3 & E4 & E5 & Hb & E7 & E8 & ->).
    exists n, g1, next_N, g2, d1, g3, n1, g4, d2, g5, dB, nB, over, g6, d3, g7, d4, g8.
    proj. auto 15.
  - intros h w' Hg H entering.
    apply run_ok_inv in H as (_ & Hloop & ->).
    rewrite (py_range_snoc g Hg), for_each_app in Hloop.
    apply bind_ok in Hloop as ([] & w1 & Hpre & Hlast).
    apply for_each_cons_ok in Hlast as (w2 & Hstep & Hnil).
    injection Hnil as <-.
    assert (Hent : entering = w1).
    { unfold entering, after_generations. rewrite Z2Nat.id by lia.
      now rewrite Hpre. }
    rewrite Hent. split; [|exact Hstep].
    apply calc_generation_frame in Hstep as (Hh & _).
    rewrite Hh. apply last_last.
Qed.

(** C6 (amended): with only [bottleneck_N] given (no year), or with only
    the year given and the year different from the generation index, the
    override is the identity and the step is the step without bottleneck
    arguments: when it completes it has made the seven calls of a plain
    step, the synthesizer at the natural next size, and it does complete
    on a Ready instance when the collaborators do not raise. *)
Theorem one_sided_bottleneck i yr bn (w : World GD Rng) :
  ((yr = None /\ exists b, bn = Some b) \/
   (bn = None /\ exists y, yr = Some y /\ y <> i)) ->
  (forall d next_N, bottleneck i yr bn d next_N = ret (d, next_N)) /\
  calc_generation i yr bn w = calc_generation i None None w /\
  (forall w',
      calc_generation i yr bn w = (Ok tt, w') ->
      exists n next_N d1 n1 d2 d3 d4,
        calls w' =
          calls w
            ++ [EvCalcN (genotype_data (self w)) (Ok n);
                EvCalcNextN n (growth_rate (self w))
                            (carrying_capacity (self w)) (Ok next_N);
                EvAdjFitness (genotype_data (self w)) (Ok d1);
                EvCalcN (Some d1) (Ok n1);
                EvAdjDrift d1 (max_drift (self w)) n1
                           (carrying_capacity (self w)) (Ok d2);
                EvNextGenotypes d2 next_N (Ok d3);
                EvAdjMutation d3 (mutation_rate (self w)) (Ok d4)]) /\
  (infallible -> (exists d, genotype_data (self w) = Some d) ->
   exists w', calc_generation i yr bn w = (Ok tt, w')).
Proof.
  intros Hone.
  assert (Hy : py_eq yr i = false).
  { destruct Hone as [(-> & _) | (_ & y & -> & Hne)]; [reflexivity|].
    cbn [py_eq]. now apply Z.eqb_neq. }
  split; [|split; [|split]].
  - intros d next_N. apply bottleneck_off. now left.
  - now apply calc_generation_year_off.
  - intros w'. now apply calc_generation_natural.
  - intros HT (d & Hd). eapply calc_generation_total; eauto.
Qed.

(** ** Beyond the generation pipeline: frames, failures, composition *)

Lemma for_each_frame l yr bn (w : World GD Rng) r w' :
  for_each l (fun i => calc_generation i yr bn) w = (r, w') ->
  (exists new, _gens_genotype_data (self w') = _gens_genotype_data (self w) ++ new /\
               (length new <= length l)%nat) /\
  growth_rate (self w') = growth_rate (self w) /\
  carrying_capacity (self w') = carrying_capacity (self w) /\
  max_drift (self w') = max_drift (self w) /\
  mutation_rate (self w') = mutation_rate (self w).
Proof.
  revert w. induction l as [|i l IH]; intros w H; cbn [for_each] in H.
  - injection H as <- <-. split; [|auto].
    exists []. split; [now rewrite app_nil_r | cbn; lia].
  - apply bind_inv in H as [([] & w1 & H1 & H2) | (e & H1 & ->)].
    + apply calc_generation_frame in H1 as (Hh & Hg & Hc & Hd & Hm).
      apply IH in H2 as ((new & Hh' & Hl) & Hg' & Hc' & Hd' & Hm').
      split; [|repeat split; congruence].
      exists (genotype_data (self w) :: new). split.
      * rewrite Hh', Hh, <- app_assoc. reflexivity.
      * cbn [length]. lia.
    + apply calc_generation_frame in H1 as (Hh & Hg & Hc & Hd & Hm).
      split; [|auto]. eexists. split; [exact Hh | cbn; lia].
Qed.

(** What a step leaves in [self], whatever its outcome: the history entry
    is appended, the parameters are kept, and the genotype data is either
    untouched (a raise before the synthesizer's result is stored), or the
    synthesizer's result (mutation raised), or the mutation result. *)
Lemma calc_generation_self i yr bn (w : World GD Rng) r w' :
  calc_generation i yr bn w = (r, w') ->
  let stored v :=
    mkPopGen (growth_rate (self w)) (carrying_capacity (self w))
             (max_drift (self w)) (mutation_rate (self w)) v
             (_gens_genotype_data (self w) ++ [genotype_data (self w)]) in
  (exists e, r = Raise e /\ self w' = stored (genotype_data (self w))) \/
  (exists e dB nB g6 d3 g7 g8 log,
      r = Raise e /\ self w' = stored (Some d3) /\
      calc_next_genotypes_data dB nB g6 = (Ok d3, g7) /\
      adj_by_mutation d3 (mutation_rate (self w)) g7 = (Raise e, g8) /\
      rng w' = g8 /\
      calls w' = log ++ [EvNextGenotypes dB nB (Ok d3);
                         EvAdjMutation d3 (mutation_rate (self w)) (Raise e)]) \/
  (exists d4, r = Ok tt /\ self w' = stored (Some d4)).
Proof.
  intros H stored. unfold calc_generation in H.
  any_get H. any_set H. any_get H. rewrite py_last_snoc in H.
  apply bind_inv in H as [(? & ? & Hm & H) | (? & Hm & ->)]; [|discriminate Hm].
  injection Hm as <- <-.
  any_call H; [|left; eexists; split; reflexivity].
  any_get H. any_get H.
  any_call H; [|left; eexists; split; reflexivity].
  any_call H; [|left; eexists; split; reflexivity].
  any_get H.
  any_call H; [|left; eexists; split; reflexivity].
  any_get H.
  any_call H; [|left; eexists; split; reflexivity].
  apply bind_inv in H as [([dB nB] & wb & Hm & H) | (e & Hm & ->)];
    apply bottleneck_self in Hm; proj_all.
  2:{ left. eexists. split; [reflexivity | exact Hm]. }
  destruct wb as [sb gb cb]. proj_all. subst sb.
  apply bind_inv in H as [(d3 & w3 & Hs & H) | (e & Hs & ->)];
    apply call_inv in Hs as (g7 & Es & ->); proj_all;
    [|left; eexists; split; reflexivity].
  any_set H. any_get H.
  apply bind_inv in H as [(d4 & w4 & Hm & H) | (e & Hm & ->)];
    apply call_inv in Hm as (g8 & Em & ->); proj_all.
  - injection H as <- <-. right. right. exists d4. now split.
  - right. left. exists e, dB, nB, gb, d3, g7, g8. eexists.
    split; [reflexivity|]. split; [reflexivity|].
    split; [exact Es|]. split; [exact Em|]. split; [reflexivity|].
    proj. rewrite <- app_assoc. reflexivity.
Qed.

Lemma for_each_raise_inv l (body : Z -> M GD Rng unit) w e w' :
  for_each l body w = (Raise e, w') ->
  exists l1 i l2 w1,
    l = l1 ++ i :: l2 /\
    for_each l1 body w = (Ok tt, w1) /\
    body i w1 = (Raise e, w').
Proof.
  revert w. induction l as [|i l IH]; intros w H; cbn [for_each] in H.
  - discriminate H.
  - apply bind_inv in H as [([] & w1 & H1 & H2) | (e' & H1 & He)].
    + apply IH in H2 as (l1 & j & l2 & w2 & -> & Hpre & Hj).
      exists (i :: l1), j, l2, w2. split; [reflexivity|]. split; [|exact Hj].
      cbn [for_each]. now erewrite bind_step by eassumption.
    + injection He as <-. exists [], i, l, w. auto.
Qed.

Lemma py_range_nth (k : nat) g :
  (k < Z.to_nat g)%nat -> nth k (py_range g) 0 = Z.of_nat k.
Proof.
  intros Hk. unfold py_range.
  change 0 with (Z.of_nat 0%nat). rewrite map_nth, seq_nth by exact Hk.
  reflexivity.
Qed.

Lemma py_range_split g l1 i l2 :
  py_range g = l1 ++ i :: l2 ->
  (length l1 < Z.to_nat g)%nat /\
  i = Z.of_nat (length l1) /\
  l1 = py_range (Z.of_nat (length l1)).
Proof.
  intros E.
  assert (Hlen : (length l1 < Z.to_nat g)%nat).
  { rewrite <- (py_range_length g), E, length_app. cbn [length]. lia. }
  split; [exact Hlen|]. split.
  - rewrite <- (py_range_nth _ g Hlen), E. now rewrite nth_middle.
  - rewrite <- (py_range_firstn (length l1) g) by lia.
    rewrite E, firstn_app, Nat.sub_diag, firstn_all. cbn [firstn].
    now rewrite app_nil_r.
Qed.

Lemma py_range_nonpositive g : g <= 0 -> py_range g = [].
Proof.
  intros Hg. unfold py_range. replace (Z.to_nat g) with 0%nat by lia. reflexivity.
Qed.

(** X1: whatever its outcome, [run] changes nothing of the instance but the
    genotype data and the history: the four parameters are the ones it
    found, and the history it found is still there, entry for entry, with
    at most one new entry per generation behind it. *)
Theorem run_frame g yr bn (w : World GD Rng) :
  let w' := snd (run g yr bn w) in
  growth_rate (self w') = growth_rate (self w) /\
  carrying_capacity (self w') = carrying_capacity (self w) /\
  max_drift (self w') = max_drift (self w) /\
  mutation_rate (self w') = mutation_rate (self w) /\
  exists new,
    _gens_genotype_data (self w') = _gens_genotype_data (self w) ++ new /\
    (length new <= Z.to_nat g)%nat.
Proof.
  cbv zeta. destruct (genotype_data (self w)) as [d|] eqn:Hd.
  - rewrite (run_ready _ _ _ _ _ Hd). unfold bind.
    destruct (for_each _ _ w) as [[[]|e] w1] eqn:Hloop; cbn [snd get self];
      apply for_each_frame in Hloop as ((new & Hh & Hl) & Hg & Hc & Hm & Hr);
      rewrite py_range_length in Hl; eauto 10.
  - unfold run. fwd. rewrite Hd. cbn [snd raise].
    repeat (split; [reflexivity|]). exists []. split; [now rewrite app_nil_r|].
    cbn. lia.
Qed.

(** X2: a generation count that is zero or negative is an empty [range]:
    on a Ready instance [run] returns the history as it is and touches
    nothing, it does not raise. *)
Theorem run_nonpositive_generations g yr bn (w : World GD Rng) d :
  g <= 0 ->
  genotype_data (self w) = Some d ->
  run g yr bn w = (Ok (_gens_genotype_data (self w)), w).
Proof.
  intros Hg Hd. rewrite (run_ready _ _ _ _ _ Hd), (py_range_nonpositive g Hg).
  reflexivity.
Qed.

(** X3: [run] is not atomic.  When it raises on a Ready instance, some
    generation [k] of the run raised: the generations before [k] were
    completed and stay recorded, generation [k] has already appended its
    entry, so the history is [k + 1] entries longer, and the world is the
    one generation [k] left behind. *)
Theorem run_failure_is_partial g yr bn (w : World GD Rng) d e w' :
  genotype_data (self w) = Some d ->
  run g yr bn w = (Raise e, w') ->
  exists k : nat,
    Z.of_nat k < g /\
    for_each (py_range (Z.of_nat k)) (fun i => calc_generation i yr bn) w
      = (Ok tt, after_generations k yr bn w) /\
    calc_generation (Z.of_nat k) yr bn (after_generations k yr bn w) = (Raise e, w') /\
    length (_gens_genotype_data (self w'))
      = (length (_gens_genotype_data (self w)) + k + 1)%nat.
Proof.
  intros Hd H. rewrite (run_ready _ _ _ _ _ Hd) in H.
  apply bind_inv in H as [([] & w1 & _ & H) | (e' & H & He)].
  { apply get_inv in H as (H & _). discriminate H. }
  injection He as <-.
  apply for_each_raise_inv in H as (l1 & i & l2 & w1 & E & Hpre & Hstep).
  apply py_range_split in E as (Hlen & -> & El1).
  exists (length l1).
  assert (Hafter : after_generations (length l1) yr bn w = w1).
  { unfold after_generations. rewrite <- El1, Hpre. reflexivity. }
  rewrite Hafter, <- El1.
  split; [lia|]. split; [exact Hpre|]. split; [exact Hstep|].
  apply for_each_ok_grows in Hpre as (new & Hh & Hl).
  apply calc_generation_frame in Hstep as (Hh' & _).
  rewrite Hh', Hh, !length_app, Hl. cbn [length]. lia.
Qed.

(** X4: when [adj_by_mutation] raises, line 85 has already stored the
    synthesizer's result: the instance is left holding that next
    generation, not yet mutated.  A step that raises anywhere else leaves
    the genotype data it found. *)
Theorem calc_generation_raise_genotype_data i yr bn (w : World GD Rng) :
  (forall n g1 next_N g2 d1 g3 n1 g4 d2 g5 dB nB over g6 d3 g7 e g8,
      calc_N (genotype_data (self w)) (rng w) = (Ok n, g1) ->
      calc_next_N n (growth_rate (self w)) (carrying_capacity (self w)) g1
        = (Ok next_N, g2) ->
      adj_by_fitness (genotype_data (self w)) g2 = (Ok d1, g3) ->
      calc_N (Some d1) g3 = (Ok n1, g4) ->
      adj_by_drift d1 (max_drift (self w)) n1 (carrying_capacity (self w)) g4
        = (Ok d2, g5) ->
      ((override_off i yr bn next_N /\
        over = [] /\ dB = d2 /\ nB = next_N /\ g6 = g5) \/
       (exists b,
           py_eq yr i = true /\ bn = Some b /\ b < next_N /\ next_N <> 0 /\
           float_overflows (inject_Z b / inject_Z next_N) = false /\
           adj_by_drift d2 (float_one_minus_ratio b next_N) b
                        (carrying_capacity (self w)) g5 = (Ok dB, g6) /\
           over = [EvAdjDrift d2 (float_one_minus_ratio b next_N) b
                              (carrying_capacity (self w)) (Ok dB)] /\
           nB = b)) ->
      calc_next_genotypes_data dB nB g6 = (Ok d3, g7) ->
      adj_by_mutation d3 (mutation_rate (self w)) g7 = (Raise e, g8) ->
      calc_generation i yr bn w =
      (Raise e,
       mkWorld
         (mkPopGen (growth_rate (self w)) (carrying_capacity (self w))
                   (max_drift (self w)) (mutation_rate (self w)) (Some d3)
                   (_gens_genotype_data (self w) ++ [genotype_data (self w)]))
         g8
         (calls w
            ++ [EvCalcN (genotype_data (self w)) (Ok n);
                EvCalcNextN n (growth_rate (self w))
                            (carrying_capacity (self w)) (Ok next_N);
                EvAdjFitness (genotype_data (self w)) (Ok d1);
                EvCalcN (Some d1) (Ok n1);
                EvAdjDrift d1 (max_drift (self w)) n1
                           (carrying_capacity (self w)) (Ok d2)]
            ++ over
            ++ [EvNextGenotypes dB nB (Ok d3);
                EvAdjMutation d3 (mutation_rate (self w)) (Raise e)]))) /\
  (forall e w',
      calc_generation i yr bn w = (Raise e, w') ->
      genotype_data (self w') = genotype_data (self w) \/
      exists dB nB g6 d3 g7 g8 log,
        calc_next_genotypes_data dB nB g6 = (Ok d3, g7) /\
        adj_by_mutation d3 (mutation_rate (self w)) g7 = (Raise e, g8) /\
        genotype_data (self w') = Some d3 /\
        rng w' = g8 /\
        calls w' = log ++ [EvNextGenotypes dB nB (Ok d3);
                           EvAdjMutation d3 (mutation_rate (self w)) (Raise e)]).
Proof.
  split.
  - intros n g1 next_N g2 d1 g3 n1 g4 d2 g5 dB nB over g6 d3 g7 e g8
           E1 E2 E3 E4 E5 Hb E7 E8.
    rewrite (calc_generation_five i yr bn w _ _ _ _ _ _ _ _ _ _ E1 E2 E3 E4 E5).
    destruct Hb as [(Hoff & -> & -> & -> & ->)
                   | (b & Hy & -> & Hlt & Hnz & Hfin & E6 & -> & ->)].
    + unfold bind at 1. rewrite (bottleneck_off _ _ _ _ _ Hoff).
      unfold ret at 1. cbv beta iota. proj.
      repeat fwd.
      erewrite bind_raise by (apply call_eq; proj; exact E8).
      proj. rewrite <- !app_assoc. reflexivity.
    + erewrite bind_step by (apply bottleneck_on; proj; eassumption).
      proj. repeat fwd.
      erewrite bind_raise by (apply call_eq; proj; exact E8).
      proj. rewrite <- !app_assoc. reflexivity.
  - intros e w' H. apply calc_generation_self in H.
    destruct H as [(e0 & _ & Hs) | [(e0 & dB & nB & g6 & d3 & g7 & g8 & log
                                     & Hr & Hs & Es & Em & Hg & Hc)
                                   | (d4 & Hr & _)]].
    + left. now rewrite Hs.
    + injection Hr as <-. right. exists dB, nB, g6, d3, g7, g8, log.
      rewrite Hs. auto.
    + discriminate Hr.
Qed.

(** X6: a step whose index is the bottleneck year cannot complete when
    [bottleneck_N] is [None]: once fitness and drift have been applied, the
    comparison [next_N > bottleneck_N] raises [TypeError]; the history entry
    stays, the genotype data is the one the step found. *)
Theorem bottleneck_year_without_size i yr (w : World GD Rng) :
  py_eq yr i = true ->
  (forall w', calc_generation i yr None w <> (Ok tt, w')) /\
  (forall n g1 next_N g2 d1 g3 n1 g4 d2 g5,
      calc_N (genotype_data (self w)) (rng w) = (Ok n, g1) ->
      calc_next_N n (growth_rate (self w)) (carrying_capacity (self w)) g1
        = (Ok next_N, g2) ->
      adj_by_fitness (genotype_data (self w)) g2 = (Ok d1, g3) ->
      calc_N (Some d1) g3 = (Ok n1, g4) ->
      adj_by_drift d1 (max_drift (self w)) n1 (carrying_capacity (self w)) g4
        = (Ok d2, g5) ->
      calc_generation i yr None w =
      (Raise (TypeError "'>' not supported between instances of 'int' and 'NoneType'"),
       mkWorld
         (mkPopGen (growth_rate (self w)) (carrying_capacity (self w))
                   (max_drift (self w)) (mutation_rate (self w))
                   (genotype_data (self w))
                   (_gens_genotype_data (self w) ++ [genotype_data (self w)]))
         g5
         (calls w
            ++ [EvCalcN (genotype_data (self w)) (Ok n);
                EvCalcNextN n (growth_rate (self w))
                            (carrying_capacity (self w)) (Ok next_N);
                EvAdjFitness (genotype_data (self w)) (Ok d1);
                EvCalcN (Some d1) (Ok n1);
                EvAdjDrift d1 (max_drift (self w)) n1
                           (carrying_capacity (self w)) (Ok d2)]))).
Proof.
  intros Hy. split.
  - intros w' H. apply calc_generation_ok_inv in H
      as (n & g1 & next_N & g2 & d1 & g3 & n1 & g4 & d2 & g5 & dB & nB & over
          & g6 & d3 & g7 & d4 & g8 & _ & _ & _ & _ & _ & Hb & _).
    destruct Hb as [([Hoff | (b & Eb & _)] & _) | (b & _ & Eb & _)];
      congruence.
  - intros n g1 next_N g2 d1 g3 n1 g4 d2 g5 E1 E2 E3 E4 E5.
    unfold calc_generation. repeat fwd.
    unfold bottleneck. rewrite Hy.
    erewrite bind_raise by reflexivity.
    rewrite <- !app_assoc. reflexivity.
Qed.

(** X7: with a negative [bottleneck_N] in the bottleneck year and a next
    size of [0], the override divides by zero: the step raises
    [ZeroDivisionError] before the second drift call; the history entry
    stays, the genotype data is the one the step found. *)
Theorem bottleneck_zero_division i yr b (w : World GD Rng)
    n g1 g2 d1 g3 n1 g4 d2 g5 :
  py_eq yr i = true ->
  b < 0 ->
  calc_N (genotype_data (self w)) (rng w) = (Ok n, g1) ->
  calc_next_N n (growth_rate (self w)) (carrying_capacity (self w)) g1
    = (Ok 0, g2) ->
  adj_by_fitness (genotype_data (self w)) g2 = (Ok d1, g3) ->
  calc_N (Some d1) g3 = (Ok n1, g4) ->
  adj_by_drift d1 (max_drift (self w)) n1 (carrying_capacity (self w)) g4
    = (Ok d2, g5) ->
  calc_generation i yr (Some b) w =
  (Raise (ZeroDivisionError "division by zero"),
   mkWorld
     (mkPopGen (growth_rate (self w)) (carrying_capacity (self w))
               (max_drift (self w)) (mutation_rate (self w))
               (genotype_data (self w))
               (_gens_genotype_data (self w) ++ [genotype_data (self w)]))
     g5
     (calls w
        ++ [EvCalcN (genotype_data (self w)) (Ok n);
            EvCalcNextN n (growth_rate (self w))
                        (carrying_capacity (self w)) (Ok 0);
            EvAdjFitness (genotype_data (self w)) (Ok d1);
            EvCalcN (Some d1) (Ok n1);
            EvAdjDrift d1 (max_drift (self w)) n1
                       (carrying_capacity (self w)) (Ok d2)])).
Proof.
  intros Hy Hb E1 E2 E3 E4 E5.
  unfold calc_generation. repeat fwd.
  unfold bottleneck, one_minus_ratio. rewrite Hy.
  apply Z.ltb_lt in Hb. rewrite Hb. cbn [Z.eqb].
  erewrite bind_raise by reflexivity.
  rewrite <- !app_assoc. reflexivity.
Qed.

Lemma for_each_map (f : Z -> Z) l (body : Z -> M GD Rng unit) w :
  for_each (map f l) body w = for_each l (fun j => body (f j)) w.
Proof.
  revert w. induction l as [|i l IH]; intros w; [reflexivity|].
  cbn [map for_each]. unfold bind.
  destruct (body (f i) w) as [[[]|e] w1]; [apply IH | reflexivity].
Qed.

Lemma seq_from_zero (s n : nat) :
  map Z.of_nat (seq s n) = map (fun j => Z.of_nat s + j) (map Z.of_nat (seq 0 n)).
Proof.
  revert s. induction n as [|n IH]; intros s; [reflexivity|].
  cbn [seq map]. f_equal; [lia|].
  rewrite (IH (S s)), (IH 1%nat), !map_map.
  apply map_ext. intros k. lia.
Qed.

Lemma py_range_add g1 g2 :
  0 <= g1 -> 0 <= g2 ->
  py_range (g1 + g2) = py_range g1 ++ map (fun j => g1 + j) (py_range g2).
Proof.
  intros H1 H2. unfold py_range.
  rewrite Z2Nat.inj_add, seq_app, map_app by lia. f_equal.
  cbn [Nat.add]. rewrite seq_from_zero, Z2Nat.id by lia. reflexivity.
Qed.

Lemma calc_generation_same_test i j yr yr' bn (w : World GD Rng) :
  py_eq yr i = py_eq yr' j ->
  calc_generation i yr bn w = calc_generation j yr' bn w.
Proof.
  intros Hy. unfold calc_generation, bottleneck. rewrite Hy. reflexivity.
Qed.

(** X8: the generation index restarts at [0] with every [run].  A run of
    [g1 + g2] generations is a run of [g1] generations followed by a run of
    [g2] generations whose bottleneck year is moved back by [g1]; with no
    bottleneck year, simply [run(g1)] then [run(g2)].  This holds for every
    outcome, a raise in either part included. *)
Theorem run_split g1 g2 yr bn (w : World GD Rng) :
  0 <= g1 -> 0 <= g2 ->
  run (g1 + g2) yr bn w =
  (run g1 yr bn ;;; run g2 (option_map (fun y => y - g1) yr) bn) w.
Proof.
  intros H1 H2.
  destruct (genotype_data (self w)) as [d|] eqn:Hd.
  2:{ unfold run. repeat fwd. rewrite Hd.
      unfold bind at 1. unfold bind at 1. cbn [get]. rewrite Hd. reflexivity. }
  rewrite (run_ready _ _ _ _ _ Hd).
  rewrite py_range_add by assumption.
  unfold bind at 1. rewrite for_each_app. unfold bind at 1.
  unfold bind at 1. rewrite (run_ready _ _ _ _ _ Hd). unfold bind at 1.
  destruct (for_each (py_range g1) _ w) as [[[]|e] w1] eqn:Hloop;
    [|reflexivity].
  cbn [get].
  destruct (for_each_keeps_ready _ _ _ _ _ (ex_intro _ d Hd) Hloop) as (d1 & Hd1).
  rewrite (run_ready _ _ _ _ _ Hd1). unfold bind.
  rewrite for_each_map.
  rewrite (for_each_ext _ _
             (fun j => calc_generation j (option_map (fun y => y - g1) yr) bn)).
  - reflexivity.
  - intros j w0 _. apply calc_generation_same_test.
    destruct yr as [y|]; [|reflexivity]. cbn [py_eq option_map].
    destruct (Z.eqb_spec y (g1 + j)), (Z.eqb_spec (y - g1) j); try reflexivity; lia.
Qed.

Ltac crush_calls :=
  repeat (match goal with
          | |- context [let (_, _) := ?c in _] =>
              lazymatch c with
              | context [match _ with _ => _ end] => fail
              | _ => destruct c as [[?|?] ?]
              end
          | |- context [if ?c then _ else _] =>
              lazymatch c with
              | context [match _ with _ => _ end] => fail
              | _ => destruct c
              end
          | |- context [match ?c with Some _ => _ | None => _ end] =>
              lazymatch c with
              | context [match _ with _ => _ end] => fail
              | _ => destruct c
              end
          end; proj).

Lemma calc_generation_with_history i yr bn h (w : World GD Rng) r w' :
  calc_generation i yr bn w = (r, w') ->
  calc_generation i yr bn (with_history h w) =
  (r, with_history (h ++ [genotype_data (self w)]) w').
Proof.
  unfold calc_generation, bottleneck, one_minus_ratio, bind, get, append_history,
    call, set_genotype_data, ret, raise, py_last, with_history.
  proj. rewrite !rev_unit. unfold ret, raise. cbv beta iota. proj.
  crush_calls.
  all: intros H; injection H as <- <-; reflexivity.
Qed.

Lemma added_app {A} (l new : list A) : added (length l) (l ++ new) = new.
Proof.
  unfold added. rewrite skipn_app, skipn_all, Nat.sub_diag. reflexivity.
Qed.

Lemma for_each_with_history l yr bn h (w : World GD Rng) r w' :
  for_each l (fun i => calc_generation i yr bn) w = (r, w') ->
  for_each l (fun i => calc_generation i yr bn) (with_history h w) =
  (r, with_history
        (h ++ added (length (_gens_genotype_data (self w)))
                    (_gens_genotype_data (self w')))
        w').
Proof.
  revert h w. induction l as [|i l IH]; intros h w H; cbn [for_each] in *.
  - injection H as <- <-. unfold added. now rewrite skipn_all, app_nil_r.
  - apply bind_inv in H as [([] & w1 & H1 & H2) | (e & H1 & ->)].
    + erewrite bind_step by (apply calc_generation_with_history; exact H1).
      rewrite (IH _ _ H2). do 2 f_equal.
      apply calc_generation_frame in H1 as (Hh1 & _).
      apply for_each_frame in H2 as ((new & Hh2 & _) & _).
      rewrite Hh2, added_app, Hh1, <- !app_assoc, added_app. reflexivity.
    + erewrite bind_raise by (apply calc_generation_with_history; exact H1).
      apply calc_generation_frame in H1 as (Hh1 & _).
      now rewrite Hh1, added_app.
Qed.

(** X9: the simulation does not depend on the history already recorded.
    Running on the same instance with any other list [h] as its history
    gives the same outcome, genotype data, parameters and collaborator
    calls; the entries the run appends are the same, now behind [h]. *)
Theorem run_history_oblivious g yr bn h (w : World GD Rng) r w' :
  run g yr bn w = (r, w') ->
  let new := added (length (_gens_genotype_data (self w)))
                   (_gens_genotype_data (self w')) in
  run g yr bn (with_history h w) =
  (match r with
   | Ok _ => Ok (h ++ new)
   | Raise e => Raise e
   end,
   with_history (h ++ new) w').
Proof.
  intros H new. unfold new. clear new. unfold run in *.
  apply bind_inv in H as [(data & w0 & Hm & H) | (e & Hm & _)];
    [|apply get_inv in Hm as (Hm & _); discriminate Hm].
  apply get_inv in Hm as (Hm & ->). injection Hm as ->.
  fwd. change (genotype_data (self (with_history h w))) with (genotype_data (self w)).
  destruct (genotype_data (self w)) as [d|].
  - apply bind_inv in H as [([] & w1 & H1 & H2) | (e & H1 & ->)].
    + apply get_inv in H2 as (-> & ->).
      rewrite (bind_step _ _ _ _ _ (for_each_with_history _ yr bn h w _ _ H1)).
      reflexivity.
    + rewrite (bind_raise _ _ _ _ _ (for_each_with_history _ yr bn h w _ _ H1)).
      reflexivity.
  - injection H as <- <-. unfold added. rewrite skipn_all, app_nil_r. reflexivity.
Qed.

Lemma calc_generation_drift_calls i yr bn (w w' : World GD Rng) :
  calc_generation i yr bn w = (Ok tt, w') ->
  exists new,
    calls w' = calls w ++ new /\
    (length (filter is_drift new) = 1%nat \/
     (length (filter is_drift new) = 2%nat /\
      yr = Some i /\ exists b, bn = Some b)).
Proof.
  intros H. apply calc_generation_ok_inv in H
    as (n & g1 & next_N & g2 & d1 & g3 & n1 & g4 & d2 & g5 & dB & nB & over
        & g6 & d3 & g7 & d4 & g8 & _ & _ & _ & _ & _ & Hb & _ & _ & ->).
  eexists. split; [reflexivity|].
  destruct Hb as [(_ & -> & _) | (b & Hy & -> & _ & _ & _ & _ & -> & _)].
  - left. reflexivity.
  - right. split; [reflexivity|]. split; [|now exists b].
    destruct yr as [y|]; [|discriminate Hy]. cbn [py_eq] in Hy.
    apply Z.eqb_eq in Hy. now subst.
Qed.

Lemma for_each_drift_calls n s yr bn (w w' : World GD Rng) :
  for_each (map Z.of_nat (seq s n)) (fun i => calc_generation i yr bn) w
    = (Ok tt, w') ->
  exists new,
    calls w' = calls w ++ new /\
    (length (filter is_drift new) = n \/
     (length (filter is_drift new) = S n /\
      exists y b, yr = Some y /\ bn = Some b /\
                  Z.of_nat s <= y < Z.of_nat (s + n))).
Proof.
  revert s w. induction n as [|n IH]; intros s w H.
  - injection H as <-. exists []. split; [now rewrite app_nil_r | now left].
  - cbn [seq map] in H. apply for_each_cons_ok in H as (w1 & H1 & H2).
    apply calc_generation_drift_calls in H1 as (new1 & Hc1 & Hn1).
    apply IH in H2 as (new2 & Hc2 & Hn2).
    exists (new1 ++ new2). split; [now rewrite Hc2, Hc1, app_assoc|].
    rewrite filter_app, length_app.
    destruct Hn1 as [E1 | (E1 & Hy & b & Hb)];
      destruct Hn2 as [E2 | (E2 & y & b' & Hy' & Hb' & Hr)]; rewrite E1, E2.
    + left. lia.
    + right. split; [lia|]. exists y, b'. repeat split; auto; lia.
    + right. split; [lia|]. exists (Z.of_nat s), b. repeat split; auto; lia.
    + exfalso. rewrite Hy in Hy'. injection Hy' as <-. lia.
Qed.

(** X10: a completed run of [g] generations calls [adj_by_drift] once per
    generation, and at most once more in the whole run: the override can
    fire only in the one generation whose index is the bottleneck year. *)
Theorem run_override_at_most_once g yr bn (w : World GD Rng) h w' :
  0 <= g ->
  run g yr bn w = (Ok h, w') ->
  exists new,
    calls w' = calls w ++ new /\
    (Z.of_nat (length (filter is_drift new)) = g \/
     (Z.of_nat (length (filter is_drift new)) = g + 1 /\
      exists y b, yr = Some y /\ bn = Some b /\ 0 <= y < g)).
Proof.
  intros Hg H. apply run_ok_inv in H as (_ & Hloop & _).
  unfold py_range in Hloop.
  apply for_each_drift_calls in Hloop as (new & Hc & Hn).
  exists new. split; [exact Hc|].
  destruct Hn as [E | (E & y & b & Hy & Hb & Hr)]; rewrite E.
  - left. lia.
  - right. split; [lia|]. exists y, b. repeat split; auto; lia.
Qed.

Context {Args : Type} `{G : Generator Args GD Rng}.

(** X11: [generate_genotype_data] only returns what the generator returns:
    it stores nothing in the instance.  An instance without genotype data
    is still without it afterwards, so [run] right after it raises the
    missing-data error; once the caller has assigned the returned data to
    [genotype_data], [run] is the run on the instance holding that data. *)
Theorem generate_genotype_data_does_not_install args (w : World GD Rng) d g' :
  generate_genotype_data args (rng w) = (Ok d, g') ->
  PopGen_generate_genotype_data args w = (Ok d, mkWorld (self w) g' (calls w)) /\
  (forall g yr bn,
      genotype_data (self w) = None ->
      (PopGen_generate_genotype_data args ;;; run g yr bn) w
      = (Raise MissingDataError, mkWorld (self w) g' (calls w))) /\
  (forall g yr bn,
      (d0 <- PopGen_generate_genotype_data args ;;
       set_genotype_data (Some d0) ;;;
       run g yr bn) w
      = run g yr bn
          (mkWorld (mkPopGen (growth_rate (self w)) (carrying_capacity (self w))
                             (max_drift (self w)) (mutation_rate (self w))
                             (Some d) (_gens_genotype_data (self w)))
                   g' (calls w))).
Proof.
  intros E.
  assert (Hgen : PopGen_generate_genotype_data args w
                 = (Ok d, mkWorld (self w) g' (calls w))).
  { unfold PopGen_generate_genotype_data. now rewrite E. }
  split; [exact Hgen|]. split.
  - intros g yr bn Hd. erewrite bind_step by exact Hgen.
    unfold run. fwd. now rewrite Hd.
  - intros g yr bn. erewrite bind_step by exact Hgen.
    erewrite bind_step by reflexivity. reflexivity.
Qed.

End Facts.

(** ** The sample population: the statements at concrete inputs *)

Import Sample.

(** The step on the 60/40 population in the bottleneck year of the
    specification's scenario (size 10, natural next size 100): the calls
    succeed in order and the step completes with the world they produce. *)
Lemma calc_generation_order_witness :
  genotype_data (self (ready 0 None AA_aa)) = Some AA_aa /\
  Qred (float_one_minus_ratio 10 100) = 8106479329266893 # 9007199254740992 /\
  calc_generation 2 (Some 2) (Some 10) (ready 0 None AA_aa) =
  (Ok tt,
   mkWorld
     (mkPopGen 0%Q None 0%Q None (Some [("AA"%string, 6); ("aa"%string, 4)])
               [Some AA_aa])
     3%nat
     [EvCalcN (Some AA_aa) (Ok 100);
      EvCalcNextN 100 0 None (Ok 100);
      EvAdjFitness (Some AA_aa) (Ok AA_aa);
      EvCalcN (Some AA_aa) (Ok 100);
      EvAdjDrift AA_aa 0 100 None (Ok AA_aa);
      EvAdjDrift AA_aa (float_one_minus_ratio 10 100) 10 None (Ok AA_aa);
      EvNextGenotypes AA_aa 10 (Ok [("AA"%string, 6); ("aa"%string, 4)]);
      EvAdjMutation [("AA"%string, 6); ("aa"%string, 4)] None
                    (Ok [("AA"%string, 6); ("aa"%string, 4)])]).
Proof.
  split; [reflexivity|]. split; [vm_compute; reflexivity|].
  destruct (calc_generation_order 2 (Some 2) (Some 10) (ready 0 None AA_aa)
              AA_aa eq_refl)
    as (_ & Hiff).
  apply Hiff.
  exists 100, 0%nat, 100, 0%nat, AA_aa, 0%nat, 100, 0%nat, AA_aa, 1%nat.
  exists AA_aa, 10,
         [EvAdjDrift AA_aa (float_one_minus_ratio 10 100) 10 None (Ok AA_aa)],
         2%nat, [("AA"%string, 6); ("aa"%string, 4)], 3%nat,
         [("AA"%string, 6); ("aa"%string, 4)], 3%nat.
  repeat (split; [reflexivity|]).
  split; [|repeat split; reflexivity].
  right. exists 10.
  split; [reflexivity|]. split; [reflexivity|]. split; [lia|]. split; [lia|].
  split; [vm_compute; reflexivity|]. repeat split; reflexivity.
Defined.

(** The bottleneck scenario of the specification: year 2, size 10, natural
    next size 100. *)
Lemma bottleneck_override_witness :
  calc_N (Some AA_aa) 0%nat = (Ok 100, 0%nat) /\
  calc_next_N 100 0 None 0%nat = (Ok 100, 0%nat) /\
  adj_by_fitness (Some AA_aa) 0%nat = (Ok AA_aa, 0%nat) /\
  adj_by_drift AA_aa 0 100 None 0%nat = (Ok AA_aa, 1%nat) /\
  10 < 100 /\ 100 <> 0 /\
  float_overflows (inject_Z 10 / inject_Z 100) = false /\
  calc_generation 2 (Some 2) (Some 10) (ready 0 None AA_aa) =
  (Ok tt,
   mkWorld
     (mkPopGen 0%Q None 0%Q None (Some [("AA"%string, 6); ("aa"%string, 4)])
               [Some AA_aa])
     3%nat
     [EvCalcN (Some AA_aa) (Ok 100);
      EvCalcNextN 100 0 None (Ok 100);
      EvAdjFitness (Some AA_aa) (Ok AA_aa);
      EvCalcN (Some AA_aa) (Ok 100);
      EvAdjDrift AA_aa 0 100 None (Ok AA_aa);
      EvAdjDrift AA_aa (float_one_minus_ratio 10 100) 10 None (Ok AA_aa);
      EvNextGenotypes AA_aa 10 (Ok [("AA"%string, 6); ("aa"%string, 4)]);
      EvAdjMutation [("AA"%string, 6); ("aa"%string, 4)] None
                    (Ok [("AA"%string, 6); ("aa"%string, 4)])]).
Proof.
  repeat (split; [reflexivity|]).
  destruct (bottleneck_override (C := sample) 2 10 (ready 0 None AA_aa)
              100 0%nat 100 0%nat AA_aa 0%nat 100 0%nat AA_aa 1%nat
              eq_refl eq_refl eq_refl eq_refl eq_refl)
    as (Hdefined & Hbelow & _).
  assert (Hpos : 0 <= 10) by lia. assert (Hlt : 10 < 100) by lia.
  destruct (Hdefined Hpos Hlt) as (Hnz & Hfin).
  split; [exact Hnz|]. split; [exact Hfin|].
  apply (Hbelow Hlt Hnz Hfin).
  exists AA_aa, 2%nat, [("AA"%string, 6); ("aa"%string, 4)], 3%nat,
         [("AA"%string, 6); ("aa"%string, 4)], 3%nat.
  repeat split; reflexivity.
Defined.

(** C2, as stated, fails for a negative bottleneck size: on a population
    that dies out (growth rate -1, natural next size 0), in the bottleneck
    year and with [bottleneck_N = -5 < 0 = next_N], the step does not
    re-apply drift and does not reach the synthesizer: [1 - (-5)/0] raises
    [ZeroDivisionError] after the five calls that precede the override. *)
Lemma negative_bottleneck_divides_by_zero :
  calc_next_N 100 (-1) None 0%nat = (Ok 0, 0%nat) /\
  -5 < 0 /\
  calc_generation 0 (Some 0) (Some (-5)) (ready (-1) None AA_aa) =
  (Raise (ZeroDivisionError "division by zero"),
   mkWorld (mkPopGen (-1)%Q None 0%Q None (Some AA_aa) [Some AA_aa]) 1%nat
           [EvCalcN (Some AA_aa) (Ok 100);
            EvCalcNextN 100 (-1) None (Ok 0);
            EvAdjFitness (Some AA_aa) (Ok AA_aa);
            EvCalcN (Some AA_aa) (Ok 100);
            EvAdjDrift AA_aa 0 100 None (Ok AA_aa)]).
Proof.
  split; [reflexivity|]. split; [lia|]. vm_compute. reflexivity.
Qed.

(** Three generations with a bottleneck in generation 1. *)
Lemma run_history_growth_witness :
  genotype_data (self (ready 0 None AA_aa)) = Some AA_aa /\
  _gens_genotype_data (self (ready 0 None AA_aa)) = [] /\
  0 <= 3 /\
  exists h w',
    run 3 (Some 1) (Some 10) (ready 0 None AA_aa) = (Ok h, w') /\
    Z.of_nat (length h) = 3 /\
    nth_error h 0 = Some (Some AA_aa) /\
    nth_error h 2
    = Some (genotype_data
              (self (after_generations 2 (Some 1) (Some 10) (ready 0 None AA_aa)))).
Proof.
  split; [reflexivity|]. split; [reflexivity|]. split; [lia|].
  exists (_gens_genotype_data
            (self (snd (run 3 (Some 1) (Some 10) (ready 0 None AA_aa))))),
         (snd (run 3 (Some 1) (Some 10) (ready 0 None AA_aa))).
  split; [vm_compute; reflexivity|].
  destruct (run_history_growth 3 (Some 1) (Some 10) (ready 0 None AA_aa) AA_aa
              (_gens_genotype_data
                 (self (snd (run 3 (Some 1) (Some 10) (ready 0 None AA_aa)))))
              (snd (run 3 (Some 1) (Some 10) (ready 0 None AA_aa))))
    as (Hlen & Hfirst & Hentry).
  - reflexivity.
  - reflexivity.
  - lia.
  - vm_compute. reflexivity.
  - split; [exact Hlen|]. split; [apply Hfirst; lia|].
    apply Hentry. vm_compute. lia.
Defined.

(** Two generations, then three more with a bottleneck, on one instance. *)
Lemma run_accumulates_witness :
  0 <= 2 /\ 0 <= 3 /\
  exists h1 w1,
    run 2 None None (ready 1 (Some 150) AA_aa) = (Ok h1, w1) /\
    h1 = _gens_genotype_data (self w1) /\
    (exists d, genotype_data (self w1) = Some d) /\
    exists h2 w2,
      run 3 (Some 1) (Some 10) w1 = (Ok h2, w2) /\
      h2 = _gens_genotype_data (self w2) /\
      (exists new, h2 = h1 ++ new /\ Z.of_nat (length new) = 3) /\
      Z.of_nat (length h2) = 2 + 3.
Proof.
  split; [lia|]. split; [lia|].
  exists (_gens_genotype_data
            (self (snd (run 2 None None (ready 1 (Some 150) AA_aa))))),
         (snd (run 2 None None (ready 1 (Some 150) AA_aa))).
  assert (Hrun1 : run 2 None None (ready 1 (Some 150) AA_aa)
                  = (Ok (_gens_genotype_data
                           (self (snd (run 2 None None (ready 1 (Some 150) AA_aa))))),
                     snd (run 2 None None (ready 1 (Some 150) AA_aa)))).
  { vm_compute. reflexivity. }
  split; [exact Hrun1|].
  assert (H2 : 0 <= 2) by lia. assert (H3 : 0 <= 3) by lia.
  destruct (run_accumulates 2 3 None None (Some 1) (Some 10)
              (ready 1 (Some 150) AA_aa) _ _ H2 H3 Hrun1)
    as (Hret & _ & Hready & Hnext & Hacc).
  split; [exact Hret|]. split; [exact Hready|].
  assert (Hrun2 :
            run 3 (Some 1) (Some 10)
                (snd (run 2 None None (ready 1 (Some 150) AA_aa)))
            = (Ok (_gens_genotype_data
                     (self (snd (run 3 (Some 1) (Some 10)
                                     (snd (run 2 None None
                                               (ready 1 (Some 150) AA_aa))))))),
               snd (run 3 (Some 1) (Some 10)
                        (snd (run 2 None None (ready 1 (Some 150) AA_aa)))))).
  { vm_compute. reflexivity. }
  eexists. eexists. split; [exact Hrun2|].
  destruct (Hacc _ _ Hrun2) as (Hret2 & Hnew & _ & Hlen).
  split; [exact Hret2|]. split; [exact Hnew|].
  apply Hlen. reflexivity.
Defined.

(** A direct call of the step on an instance without genotype data. *)
Lemma calc_generation_appends_first_witness :
  genotype_data (self uninitialized) = None /\
  calc_generation 0 None None uninitialized
    = (Raise none_error, snd (calc_generation 0 None None uninitialized)) /\
  _gens_genotype_data (self (snd (calc_generation 0 None None uninitialized)))
    = [None].
Proof.
  split; [reflexivity|]. split; [vm_compute; reflexivity|].
  destruct (calc_generation_appends_first 0 None None uninitialized)
    as (_ & Hraise & Hunset).
  apply Hunset. reflexivity.
Defined.

(** A bottleneck year beyond the last generation of the run. *)
Lemma bottleneck_year_outside_run_witness :
  (forall i, In i (py_range 3) ->
     py_eq (Some 5) i = false /\
     forall d next_N,
       bottleneck i (Some 5) (Some 10) d next_N
       = (ret (d, next_N) : M genotypes nat (genotypes * Z))) /\
  run 3 (Some 5) (Some 10) (ready 0 None AA_aa)
    = run 3 None None (ready 0 None AA_aa).
Proof.
  apply (bottleneck_year_outside_run 3 (Some 5) (Some 10) (ready 0 None AA_aa)).
  right. exists 5. split; [reflexivity|]. right. lia.
Defined.

(** [run(0)] on a Ready instance that already holds two history entries. *)
Lemma run_zero_witness :
  let w := snd (run 2 None None (ready 1 None AA_aa)) in
  genotype_data (self w) = Some [("AA"%string, 240); ("aa"%string, 160)] /\
  run 0 (Some 0) (Some 10) w = (Ok (_gens_genotype_data (self w)), w).
Proof.
  intros w. split; [vm_compute; reflexivity|].
  apply (run_zero (Some 0) (Some 10) w [("AA"%string, 240); ("aa"%string, 160)]).
  vm_compute. reflexivity.
Defined.

(** The guard of [run], and the unguarded step, on [PopGen()]. *)
Lemma run_requires_data_witness :
  genotype_data (self uninitialized) = None /\
  run 5 None None uninitialized = (Raise MissingDataError, uninitialized) /\
  calc_generation 0 None None uninitialized =
  (Raise none_error,
   mkWorld (mkPopGen 0%Q None 0%Q None None [None]) 0%nat
           [EvCalcN None (Raise none_error)]).
Proof.
  split; [reflexivity|].
  destruct (run_requires_data 5 0 None None uninitialized eq_refl) as [Hrun Hstep].
  split; [exact Hrun|].
  apply (Hstep none_error 0%nat). reflexivity.
Defined.

(** C4, as stated, fails on the step: called directly on [PopGen()] it does
    not raise the missing-data error; it raises what [calc_N(None)] raises,
    after having appended [None] to the history. *)
Lemma calc_generation_unset_not_missing_data :
  genotype_data (self uninitialized) = None /\
  fst (calc_generation 0 None None uninitialized) = Raise none_error /\
  fst (calc_generation 0 None None uninitialized) <> Raise MissingDataError.
Proof.
  split; [reflexivity|]. split; [vm_compute; reflexivity|].
  vm_compute. discriminate.
Qed.

(** A doubling population with mutation at rate 1/100: the step stores
    what [adj_by_mutation] returned; the history lags one generation
    behind. *)
Lemma mutation_result_is_current_witness :
  (exists w' d3 g7 d4 g8,
      calc_generation 0 None None (mutating 1 (1 # 100) AA_aa) = (Ok tt, w') /\
      adj_by_mutation d3 (Some (1 # 100)) g7 = (Ok d4, g8) /\
      genotype_data (self w') = Some d4 /\
      rng w' = g8 /\
      _gens_genotype_data (self w') = [Some AA_aa]) /\
  0 < 2 /\
  exists h w',
    run 2 None None (mutating 1 (1 # 100) AA_aa) = (Ok h, w') /\
    last h None
    = genotype_data
        (self (after_generations 1 None None (mutating 1 (1 # 100) AA_aa))) /\
    calc_generation 1 None None
                    (after_generations 1 None None (mutating 1 (1 # 100) AA_aa))
    = (Ok tt, w').
Proof.
  destruct (mutation_result_is_current 2 None None (mutating 1 (1 # 100) AA_aa))
    as [Hstep Hrun].
  split.
  - destruct (Hstep 0 (mutating 1 (1 # 100) AA_aa)
                (snd (calc_generation 0 None None (mutating 1 (1 # 100) AA_aa))))
      as (n & g1 & next_N & g2 & d1 & g3 & n1 & g4 & d2 & g5 & dB & nB & over
          & g6 & d3 & g7 & d4 & g8 & _ & _ & _ & _ & _ & _ & _ & E8 & Hd & Hg & Hh).
    { vm_compute. reflexivity. }
    exists (snd (calc_generation 0 None None (mutating 1 (1 # 100) AA_aa))),
           d3, g7, d4, g8.
    split; [vm_compute; reflexivity|]. auto.
  - split; [lia|].
    exists (_gens_genotype_data
              (self (snd (run 2 None None (mutating 1 (1 # 100) AA_aa))))),
           (snd (run 2 None None (mutating 1 (1 # 100) AA_aa))).
    split; [vm_compute; reflexivity|].
    apply Hrun; [lia|]. vm_compute. reflexivity.
Defined.

(** C5, as stated, fails: after one generation of a doubling population
    with mutation at rate 1/100, the only history entry is the 60/40 data
    that entered the generation; the current data is the mutation result,
    119/81, which the step has not appended. *)
Lemma last_entry_is_not_current :
  exists h w',
    run 1 None None (mutating 1 (1 # 100) AA_aa) = (Ok h, w') /\
    h = [Some AA_aa] /\
    genotype_data (self w') = Some [("AA"%string, 119); ("aa"%string, 81)] /\
    last h None <> genotype_data (self w') /\
    ~ In (genotype_data (self w')) h.
Proof.
  exists [Some AA_aa], (snd (run 1 None None (mutating 1 (1 # 100) AA_aa))).
  split; [vm_compute; reflexivity|]. split; [reflexivity|].
  split; [vm_compute; reflexivity|]. split.
  - vm_compute. discriminate.
  - vm_compute. intros [H | []]. discriminate H.
Qed.

(** Only a size (no year); only a year, different from the index. *)
Lemma one_sided_bottleneck_witness :
  (calc_generation 0 None (Some 10) (ready 0 None AA_aa)
   = calc_generation 0 None None (ready 0 None AA_aa) /\
   exists w', calc_generation 0 None (Some 10) (ready 0 None AA_aa) = (Ok tt, w')) /\
  (calc_generation 0 (Some 3) None (ready 0 None AA_aa)
   = calc_generation 0 None None (ready 0 None AA_aa) /\
   exists w', calc_generation 0 (Some 3) None (ready 0 None AA_aa) = (Ok tt, w')).
Proof.
  split.
  - destruct (one_sided_bottleneck 0 None (Some 10) (ready 0 None AA_aa))
      as (_ & Heq & _ & Hok).
    { left. split; [reflexivity|]. now exists 10. }
    split; [exact Heq|].
    exists (snd (calc_generation 0 None (Some 10) (ready 0 None AA_aa))).
    vm_compute. reflexivity.
  - destruct (one_sided_bottleneck 0 (Some 3) None (ready 0 None AA_aa))
      as (_ & Heq & _ & Hok).
    { right. split; [reflexivity|]. exists 3. split; [reflexivity | lia]. }
    split; [exact Heq|].
    exists (snd (calc_generation 0 (Some 3) None (ready 0 None AA_aa))).
    vm_compute. reflexivity.
Defined.

(** C6, as stated, fails: with the year given and equal to the generation
    index and [bottleneck_N] left unset, the comparison
    [next_N > bottleneck_N] raises [TypeError], where the same step without
    bottleneck arguments completes. *)
Lemma year_without_size_raises :
  fst (calc_generation 0 (Some 0) None (ready 0 None AA_aa))
    = Raise (TypeError "'>' not supported between instances of 'int' and 'NoneType'") /\
  fst (calc_generation 0 None None (ready 0 None AA_aa)) = Ok tt.
Proof. split; vm_compute; reflexivity. Qed.

(** ** The further properties at concrete inputs *)

Import SampleGenerator.

(** [run(-3)] on a Ready instance. *)
Lemma run_nonpositive_generations_witness :
  -3 <= 0 /\
  genotype_data (self (ready 0 None AA_aa)) = Some AA_aa /\
  run (-3) (Some 0) (Some 10) (ready 0 None AA_aa) = (Ok [], ready 0 None AA_aa).
Proof.
  split; [lia|]. split; [reflexivity|].
  apply (run_nonpositive_generations (-3) (Some 0) (Some 10) (ready 0 None AA_aa) AA_aa).
  - lia.
  - reflexivity.
Defined.

(** A run of three generations that raises in generation 1 (bottleneck year
    given, size missing): generation 0 stays recorded, generation 1 has
    appended its entry. *)
Lemma run_failure_is_partial_witness :
  genotype_data (self (ready 0 None AA_aa)) = Some AA_aa /\
  exists e w',
    run 3 (Some 1) None (ready 0 None AA_aa) = (Raise e, w') /\
    exists k : nat,
      Z.of_nat k < 3 /\
      for_each (py_range (Z.of_nat k)) (fun i => calc_generation i (Some 1) None)
               (ready 0 None AA_aa)
        = (Ok tt, after_generations k (Some 1) None (ready 0 None AA_aa)) /\
      calc_generation (Z.of_nat k) (Some 1) None
                      (after_generations k (Some 1) None (ready 0 None AA_aa))
        = (Raise e, w') /\
      length (_gens_genotype_data (self w')) = (0 + k + 1)%nat.
Proof.
  split; [reflexivity|].
  exists (TypeError "'>' not supported between instances of 'int' and 'NoneType'"),
         (snd (run 3 (Some 1) None (ready 0 None AA_aa))).
  split; [vm_compute; reflexivity|].
  apply (run_failure_is_partial 3 (Some 1) None (ready 0 None AA_aa) AA_aa).
  - reflexivity.
  - vm_compute. reflexivity.
Defined.

(** A doubling population whose mutation adjustment raises: the instance
    is left with the synthesizer's 120/80, not with the 60/40 it held. *)
Lemma calc_generation_raise_genotype_data_witness :
  @calc_generation genotypes nat failing_mutation 0 None None
                   (mutating 1 (1 # 100) AA_aa) =
  (Raise mutation_error,
   mkWorld
     (mkPopGen 1%Q None 0%Q (Some (1 # 100))
               (Some [("AA"%string, 120); ("aa"%string, 80)]) [Some AA_aa])
     3%nat
     [EvCalcN (Some AA_aa) (Ok 100);
      EvCalcNextN 100 1 None (Ok 200);
      EvAdjFitness (Some AA_aa) (Ok AA_aa);
      EvCalcN (Some AA_aa) (Ok 100);
      EvAdjDrift AA_aa 0 100 None (Ok AA_aa);
      EvNextGenotypes AA_aa 200 (Ok [("AA"%string, 120); ("aa"%string, 80)]);
      EvAdjMutation [("AA"%string, 120); ("aa"%string, 80)] (Some (1 # 100))
                    (Raise mutation_error)]).
Proof.
  destruct (calc_generation_raise_genotype_data (C := failing_mutation)
              0 None None (mutating 1 (1 # 100) AA_aa))
    as (Hmutation & _).
  apply (Hmutation 100 0%nat 200 0%nat AA_aa 0%nat 100 0%nat AA_aa 1%nat
                   AA_aa 200 [] 1%nat
                   [("AA"%string, 120); ("aa"%string, 80)] 2%nat
                   mutation_error 3%nat);
    try reflexivity.
  left. repeat split; try reflexivity. now left.
Defined.

(** Bottleneck year 0 without a size, on the 60/40 population. *)
Lemma bottleneck_year_without_size_witness :
  py_eq (Some 0) 0 = true /\
  (forall w', calc_generation 0 (Some 0) None (ready 0 None AA_aa) <> (Ok tt, w')) /\
  calc_generation 0 (Some 0) None (ready 0 None AA_aa) =
  (Raise (TypeError "'>' not supported between instances of 'int' and 'NoneType'"),
   mkWorld (mkPopGen 0%Q None 0%Q None (Some AA_aa) [Some AA_aa]) 1%nat
           [EvCalcN (Some AA_aa) (Ok 100);
            EvCalcNextN 100 0 None (Ok 100);
            EvAdjFitness (Some AA_aa) (Ok AA_aa);
            EvCalcN (Some AA_aa) (Ok 100);
            EvAdjDrift AA_aa 0 100 None (Ok AA_aa)]).
Proof.
  split; [reflexivity|].
  destruct (bottleneck_year_without_size 0 (Some 0) (ready 0 None AA_aa) eq_refl)
    as [Hnever Hraise].
  split; [exact Hnever|].
  apply (Hraise 100 0%nat 100 0%nat AA_aa 0%nat 100 0%nat AA_aa 1%nat);
    reflexivity.
Defined.

(** A population that dies out (growth rate -1) with a negative bottleneck
    size. *)
Lemma bottleneck_zero_division_witness :
  py_eq (Some 0) 0 = true /\ -5 < 0 /\
  calc_generation 0 (Some 0) (Some (-5)) (ready (-1) None AA_aa) =
  (Raise (ZeroDivisionError "division by zero"),
   mkWorld (mkPopGen (-1)%Q None 0%Q None (Some AA_aa) [Some AA_aa]) 1%nat
           [EvCalcN (Some AA_aa) (Ok 100);
            EvCalcNextN 100 (-1) None (Ok 0);
            EvAdjFitness (Some AA_aa) (Ok AA_aa);
            EvCalcN (Some AA_aa) (Ok 100);
            EvAdjDrift AA_aa 0 100 None (Ok AA_aa)]).
Proof.
  split; [reflexivity|]. split; [lia|].
  apply (bottleneck_zero_division 0 (Some 0) (-5) (ready (-1) None AA_aa)
           100 0%nat 0%nat AA_aa 0%nat 100 0%nat AA_aa 1%nat);
    reflexivity.
Defined.

(** Three generations with a bottleneck in year 2, as two generations and
    then one whose bottleneck year is 0. *)
Lemma run_split_witness :
  0 <= 2 /\ 0 <= 1 /\
  run (2 + 1) (Some 2) (Some 10) (ready 0 None AA_aa) =
  (run 2 (Some 2) (Some 10) ;;; run 1 (Some 0) (Some 10))%py (ready 0 None AA_aa).
Proof.
  split; [lia|]. split; [lia|].
  apply (run_split 2 1 (Some 2) (Some 10) (ready 0 None AA_aa)); lia.
Defined.

(** The doubling population, run on top of a history of two older entries. *)
Lemma run_history_oblivious_witness :
  exists hist w',
    run 2 None None (ready 1 None AA_aa) = (Ok hist, w') /\
    run 2 None None (with_history [None; Some AA_aa] (ready 1 None AA_aa)) =
    (Ok ([None; Some AA_aa] ++ added 0 (_gens_genotype_data (self w'))),
     with_history ([None; Some AA_aa] ++ added 0 (_gens_genotype_data (self w'))) w').
Proof.
  exists (_gens_genotype_data (self (snd (run 2 None None (ready 1 None AA_aa))))),
         (snd (run 2 None None (ready 1 None AA_aa))).
  split; [vm_compute; reflexivity|].
  apply (run_history_oblivious 2 None None [None; Some AA_aa] (ready 1 None AA_aa)
           (Ok (_gens_genotype_data
                  (self (snd (run 2 None None (ready 1 None AA_aa))))))).
  vm_compute. reflexivity.
Defined.

(** Three generations with a bottleneck that fires in year 1. *)
Lemma run_override_at_most_once_witness :
  0 <= 3 /\
  exists h w',
    run 3 (Some 1) (Some 10) (ready 0 None AA_aa) = (Ok h, w') /\
    exists new,
      calls w' = calls (ready 0 None AA_aa) ++ new /\
      (Z.of_nat (length (filter is_drift new)) = 3 \/
       (Z.of_nat (length (filter is_drift new)) = 3 + 1 /\
        exists y b, Some 1 = Some y /\ Some 10 = Some b /\ 0 <= y < 3)).
Proof.
  split; [lia|].
  exists (_gens_genotype_data
            (self (snd (run 3 (Some 1) (Some 10) (ready 0 None AA_aa))))),
         (snd (run 3 (Some 1) (Some 10) (ready 0 None AA_aa))).
  split; [vm_compute; reflexivity|].
  apply (run_override_at_most_once 3 (Some 1) (Some 10) (ready 0 None AA_aa)
           (_gens_genotype_data
              (self (snd (run 3 (Some 1) (Some 10) (ready 0 None AA_aa)))))).
  - lia.
  - vm_compute. reflexivity.
Defined.

(** Generating 100 individuals over two genotypes on [PopGen()]. *)
Lemma generate_genotype_data_does_not_install_witness :
  let args := (["AA"%string; "aa"%string], 100) in
  let d := [("AA"%string, 50); ("aa"%string, 50)] in
  generate_genotype_data args (rng uninitialized) = (Ok d, 0%nat) /\
  PopGen_generate_genotype_data args uninitialized = (Ok d, uninitialized) /\
  (PopGen_generate_genotype_data args ;;; run 5 None None)%py uninitialized
    = (Raise MissingDataError, uninitialized) /\
  (d0 <- PopGen_generate_genotype_data args ;;
   set_genotype_data (Some d0) ;;;
   run 5 None None)%py uninitialized
    = run 5 None None (ready 0 None d).
Proof.
  intros args d.
  assert (Egen : generate_genotype_data args (rng uninitialized) = (Ok d, 0%nat)).
  { vm_compute. reflexivity. }
  split; [exact Egen|].
  destruct (generate_genotype_data_does_not_install args uninitialized d 0%nat Egen)
    as (Hgen & Hraise & Hrun).
  split; [exact Hgen|]. split.
  - apply Hraise. reflexivity.
  - apply Hrun.
Defined.
